(** * EdgeSight embedding + LLM sidecar: [embedding_sidecar.py]

    A shallow embedding of the sidecar: two lazily loaded model handles kept
    in module-level globals, and three HTTP endpoints ([/embed], [/query],
    [/health]) that marshal request bodies into calls of the model libraries.

    The model libraries (sentence_transformers, transformers, torch) are not
    part of the program.  Every call into them goes through an [oracle]: a
    function of the state of the outside world (files on disk, the sampler's
    random state, ...) that either raises or returns.  The theorems about
    the program are parametric in that oracle, so they hold for whatever the
    libraries do; a small concrete backend at the end runs the program. *)

From Stdlib Require Import Ascii String.
From Stdlib Require Import List ZArith NArith QArith Bool Lia.
Import ListNotations.

Close Scope Q_scope.
Local Open Scope list_scope.

(** ** Python values *)

(** A Python [str] is a sequence of Unicode code points. *)
Definition pystr := list N.

(** An ASCII literal of the source as a [pystr]. *)
Definition lit (s : string) : pystr :=
  map N_of_ascii (list_ascii_of_string s).

Definition pystr_eqb (a b : pystr) : bool :=
  if list_eq_dec N.eq_dec a b then true else false.

(** [str.strip()] with no argument removes the characters CPython classifies
    as whitespace: the ASCII ones 0x09-0x0D, 0x1C-0x1F and 0x20, and the
    code points 0x85, 0xA0, 0x1680, 0x2000-0x200A, 0x2028, 0x2029, 0x202F,
    0x205F and 0x3000. *)
Definition py_isspace (c : N) : bool :=
  ((9 <=? c) && (c <=? 13) || (28 <=? c) && (c <=? 32)
   || (c =? 133) || (c =? 160) || (c =? 5760)
   || (8192 <=? c) && (c <=? 8202)
   || (c =? 8232) || (c =? 8233) || (c =? 8239) || (c =? 8287)
   || (c =? 12288))%N.

Fixpoint lstrip (s : pystr) : pystr :=
  match s with
  | [] => []
  | c :: t => if py_isspace c then lstrip t else s
  end.

Fixpoint rstrip (s : pystr) : pystr :=
  match s with
  | [] => []
  | c :: t =>
      match rstrip t with
      | [] => if py_isspace c then [] else [c]
      | t' => c :: t'
      end
  end.

(** [s.strip()] *)
Definition strip (s : pystr) : pystr := rstrip (lstrip s).

(** No whitespace at either end (the empty string included). *)
Definition trimmed (s : pystr) : Prop :=
  match s with
  | [] => True
  | c :: _ => py_isspace c = false /\ py_isspace (last s c) = false
  end.

Definition has_visible_char (s : pystr) : bool :=
  existsb (fun c => negb (py_isspace c)) s.

(** A raised Python exception: its class name, whether the class derives
    from [Exception] (KeyboardInterrupt and SystemExit do not), and [str(e)]. *)
Record exn : Type := mkExn {
  exn_class : pystr;
  exn_is_Exception : bool;
  exn_str : pystr
}.

(** [seq[0]] on an empty sequence. *)
Definition IndexError : exn :=
  mkExn (lit "IndexError") true (lit "list index out of range").

(** Attribute access on [None]. *)
Definition AttributeError_None (attr : pystr) : exn :=
  mkExn (lit "AttributeError") true
        (lit "'NoneType' object has no attribute '" ++ attr ++ lit "'").

(** A parsed JSON document, as [json.loads] delivers it to the framework. *)
#[warnings="-register-all"]
Inductive json : Type :=
| JNull
| JBool (b : bool)
| JInt (z : Z)
| JFloat (q : Q)
| JStr (s : pystr)
| JArr (l : list json)
| JObj (fields : list (pystr * json)).

(** Member lookup in a JSON object: when a name is repeated, the last
    occurrence is the one the parser keeps. *)
Fixpoint obj_get (k : pystr) (fields : list (pystr * json)) : option json :=
  match fields with
  | [] => None
  | (k', v) :: rest =>
      match obj_get k rest with
      | Some v' => Some v'
      | None => if pystr_eqb k k' then Some v else None
      end
  end.

Definition has_field (k : pystr) (body : json) : bool :=
  match body with
  | JObj fields => match obj_get k fields with Some _ => true | None => false end
  | _ => false
  end.

(** ** Request and response models *)

(** [class EmbedRequest(BaseModel): text: str] *)
Record EmbedRequest : Type := mkEmbedRequest { text : pystr }.

(** [class QueryRequest(BaseModel): system: str; user: str; max_tokens: int = 256].
    A Python [int] is unbounded. *)
Record QueryRequest : Type := mkQueryRequest {
  system : pystr;
  user : pystr;
  max_tokens : Z
}.

(** [class QueryResponse(BaseModel): answer: str] *)
Record QueryResponse : Type := mkQueryResponse { answer : pystr }.

(** One turn of the chat transcript: [{"role": ..., "content": ...}]. *)
Record Message : Type := mkMessage { role : pystr; content : pystr }.

(** What [tokenizer([text], return_tensors="pt")] returns: a mapping with the
    two tensors the model takes, one row per text. *)
Record BatchEncoding : Type := mkBatchEncoding {
  input_ids : list (list Z);
  attention_mask : list (list Z)
}.

(** A keyword argument of [model.generate]. *)
Inductive KwVal : Type :=
| KTensor (rows : list (list Z))
| KInt (z : Z)
| KFloat (q : Q)
| KBool (b : bool).

Definition kwargs := list (pystr * KwVal).

Fixpoint kw_get (k : pystr) (kw : kwargs) : option KwVal :=
  match kw with
  | [] => None
  | (k', v) :: rest => if pystr_eqb k k' then Some v else kw_get k rest
  end.

(** What the framework does with a request. *)
Inductive Outcome (A : Type) : Type :=
| Rejected (status : Z) (field : pystr)  (* body failed validation; handler not run *)
| Failed (e : exn)                       (* handler raised *)
| Returned (a : A).                      (* handler returned *)
Arguments Rejected {A} status field.
Arguments Failed {A} e.
Arguments Returned {A} a.

Definition client_error (status : Z) : bool :=
  ((400 <=? status) && (status <? 500))%Z.

(** ** The generation settings in force *)



(** ** The process and the outside world *)

(** Opaque objects owned by the model libraries, and the state of the world
    outside the process. *)
Class Libs : Type := mkLibs {
  World : Type;
  EmbedModel : Type;
  CausalLM : Type;
  Tokenizer : Type;
  float : Type
}.

Section Sidecar.

Context {L : Libs}.

(** [_llm_model] holds a dict with exactly the keys ['model'] and
    ['tokenizer']. *)
Record LLMData : Type := mkLLMData {
  llm_model : CausalLM;
  llm_tokenizer : Tokenizer
}.

(** [class EmbedResponse(BaseModel): embedding: list[float]] *)
Record EmbedResponse : Type := mkEmbedResponse { embedding : list float }.

(** The calls the program makes into the libraries, with their arguments
    as the source passes them. *)
Inductive Call : Type :=
| ImportSentenceTransformers
| SentenceTransformer (name : pystr)
| ImportTransformers
| AutoModelForCausalLM_from_pretrained (name device_map torch_dtype : pystr)
| AutoTokenizer_from_pretrained (name : pystr)
| Encode (m : EmbedModel) (sentences : list pystr)
| ImportTorch
| ApplyChatTemplate (t : Tokenizer) (messages : list Message)
                    (tokenize add_generation_prompt : bool)
| Tokenize (t : Tokenizer) (texts : list pystr) (return_tensors : pystr)
| Generate (m : CausalLM) (kw : kwargs)
| BatchDecode (t : Tokenizer) (ids : list (list Z))
              (skip_special_tokens : bool).

(** What each call returns when it does not raise. *)
Definition ret_type (c : Call) : Type :=
  match c with
  | ImportSentenceTransformers | ImportTransformers | ImportTorch => unit
  | SentenceTransformer _ => EmbedModel
  | AutoModelForCausalLM_from_pretrained _ _ _ => CausalLM
  | AutoTokenizer_from_pretrained _ => Tokenizer
  | Encode _ _ => list (list float)
  | ApplyChatTemplate _ _ _ _ => pystr
  | Tokenize _ _ _ => BatchEncoding
  | Generate _ _ => list (list Z)
  | BatchDecode _ _ _ => list pystr
  end.

(** The installed libraries.  [oracle]: each call reads and advances the
    outside world, and raises or returns.  [coerce_str], [coerce_int]: what
    the validation library makes of a member whose JSON type is not the
    declared one (it may refuse it or convert it). *)
Class Backend : Type := mkBackend {
  oracle : forall c : Call, World -> (exn + ret_type c) * World;
  coerce_str : json -> option pystr;
  coerce_int : json -> option Z
}.

Context {B : Backend}.

(** A call that was made, with what came back. *)
Record Event : Type := mkEvent {
  ev_call : Call;
  ev_result : exn + ret_type ev_call
}.

(** The state of the process.  [trace] is a history variable: the program
    never reads it. *)
Record Proc : Type := mkProc {
  _embed_model : option EmbedModel;
  _llm_model : option LLMData;
  stdout : list pystr;
  world : World;
  trace : list Event
}.

(** Code that reads and writes the process state and may raise. *)
Definition M (A : Type) : Type := Proc -> (exn + A) * Proc.

Definition ret {A} (a : A) : M A := fun s => (inr a, s).

Definition raise {A} (e : exn) : M A := fun s => (inl e, s).

Definition bind {A B} (m : M A) (k : A -> M B) : M B :=
  fun s =>
    match m s with
    | (inl e, s') => (inl e, s')
    | (inr a, s') => k a s'
    end.

Notation "x <- m ;; k" := (bind m (fun x => k))
  (at level 61, m at next level, right associativity).
Notation "m ;;; k" := (bind m (fun _ => k))
  (at level 61, right associativity).

(** [try: body / except Exception as e: handler]. *)
Definition try_except_Exception {A} (body : M A) (handler : exn -> M A) : M A :=
  fun s =>
    match body s with
    | (inl e, s') =>
        if exn_is_Exception e then handler e s' else (inl e, s')
    | r => r
    end.

Definition call (c : Call) : M (ret_type c) :=
  fun s =>
    let (r, w) := oracle c (world s) in
    (r, mkProc (_embed_model s) (_llm_model s) (stdout s) w
               (trace s ++ [mkEvent c r])).

Definition print (line : pystr) : M unit :=
  fun s =>
    (inr tt, mkProc (_embed_model s) (_llm_model s) (stdout s ++ [line])
                    (world s) (trace s)).

Definition read_embed_model : M (option EmbedModel) :=
  fun s => (inr (_embed_model s), s).

Definition write_embed_model (v : option EmbedModel) : M unit :=
  fun s => (inr tt, mkProc v (_llm_model s) (stdout s) (world s) (trace s)).

Definition read_llm_model : M (option LLMData) :=
  fun s => (inr (_llm_model s), s).

Definition write_llm_model (v : option LLMData) : M unit :=
  fun s => (inr tt, mkProc (_embed_model s) v (stdout s) (world s) (trace s)).

(** ** The model accessors *)

Definition get_embed_model : M (option EmbedModel) :=
  cur <- read_embed_model ;;
  match cur with
  | None =>
      try_except_Exception
        (call ImportSentenceTransformers ;;;
         m <- call (SentenceTransformer
                      (lit "sentence-transformers/all-MiniLM-L6-v2")) ;;
         write_embed_model (Some m))
        (fun e =>
           print (lit "Error loading embedding model: " ++ exn_str e) ;;;
           raise e)
  | Some _ => ret tt
  end ;;;
  read_embed_model.

Definition get_llm_model : M (option LLMData) :=
  cur <- read_llm_model ;;
  match cur with
  | None =>
      try_except_Exception
        (call ImportTransformers ;;;
         print (lit "Loading Qwen model (this may take a moment)...") ;;;
         m <- call (AutoModelForCausalLM_from_pretrained
                      (lit "Qwen/Qwen2.5-1.5B-Instruct") (lit "cpu") (lit "auto")) ;;
         t <- call (AutoTokenizer_from_pretrained
                      (lit "Qwen/Qwen2.5-1.5B-Instruct")) ;;
         write_llm_model (Some (mkLLMData m t)) ;;;
         print (lit "Qwen model loaded successfully"))
        (fun e =>
           print (lit "Error loading LLM model: " ++ exn_str e) ;;;
           raise e)
  | Some _ => ret tt
  end ;;;
  read_llm_model.

(** ** The handlers *)

(** [seq[0]] *)
Definition index0 {A} (l : list A) : M A :=
  match l with
  | [] => raise IndexError
  | x :: _ => ret x
  end.

Definition embed (req : EmbedRequest) : M EmbedResponse :=
  model <- get_embed_model ;;
  match model with
  | None => raise (AttributeError_None (lit "encode"))
  | Some model =>
      rows <- call (Encode model [text req]) ;;
      vec <- index0 rows ;;
      ret (mkEmbedResponse vec)
  end.

(** [with torch.no_grad(): body]: gradient tracking is switched off around
    the body, which runs as it is. *)
Definition with_no_grad {A} (body : M A) : M A := body.

(** [[output_ids[len(input_ids):] for input_ids, output_ids in zip(ins, outs)]] *)
Definition strip_prompt (ins outs : list (list Z)) : list (list Z) :=
  map (fun io => skipn (length (fst io)) (snd io)) (combine ins outs).

(** The keyword arguments of the [generate] call:
    [**model_inputs, max_new_tokens=req.max_tokens, temperature=0.2]. *)
Definition generate_kwargs (model_inputs : BatchEncoding) (req : QueryRequest)
  : kwargs :=
  [ (lit "input_ids", KTensor (input_ids model_inputs));
    (lit "attention_mask", KTensor (attention_mask model_inputs));
    (lit "max_new_tokens", KInt (max_tokens req));
    (lit "temperature", KFloat 0.2) ].

Definition query (req : QueryRequest) : M QueryResponse :=
  call ImportTorch ;;;
  llm_data <- get_llm_model ;;
  match llm_data with
  | None => raise (mkExn (lit "TypeError") true
                         (lit "'NoneType' object is not subscriptable"))
  | Some llm_data =>
      let model := llm_model llm_data in
      let tokenizer := llm_tokenizer llm_data in
      let messages :=
        [ mkMessage (lit "system") (system req);
          mkMessage (lit "user") (user req) ] in
      text <- call (ApplyChatTemplate tokenizer messages false true) ;;
      model_inputs <- call (Tokenize tokenizer [text] (lit "pt")) ;;
      generated_ids <-
        with_no_grad (call (Generate model (generate_kwargs model_inputs req))) ;;
      let generated_ids := strip_prompt (input_ids model_inputs) generated_ids in
      texts <- call (BatchDecode tokenizer generated_ids true) ;;
      answer <- index0 texts ;;
      ret (mkQueryResponse (strip answer))
  end.

Definition health : M (list (pystr * pystr)) :=
  ret [ (lit "status", lit "ok") ].

(** ** The HTTP layer

    The framework parses the body, validates it against the handler's
    request model and only then runs the handler.  A member declared
    without a default is required; a member declared with one takes it
    when the body leaves the member out. *)

Definition as_str (v : json) : option pystr :=
  match v with JStr s => Some s | _ => coerce_str v end.

Definition as_int (v : json) : option Z :=
  match v with JInt z => Some z | _ => coerce_int v end.

(** A required member: the offending member's name on the left. *)
Definition required {A} (name : pystr) (conv : json -> option A)
           (fields : list (pystr * json)) : pystr + A :=
  match obj_get name fields with
  | None => inl name
  | Some v => match conv v with Some a => inr a | None => inl name end
  end.

Definition with_default {A} (name : pystr) (conv : json -> option A)
           (default : A) (fields : list (pystr * json)) : pystr + A :=
  match obj_get name fields with
  | None => inr default
  | Some v => match conv v with Some a => inr a | None => inl name end
  end.

Definition validate_EmbedRequest (body : json) : pystr + EmbedRequest :=
  match body with
  | JObj fields =>
      match required (lit "text") as_str fields with
      | inl f => inl f
      | inr t => inr (mkEmbedRequest t)
      end
  | _ => inl (lit "body")
  end.

Definition validate_QueryRequest (body : json) : pystr + QueryRequest :=
  match body with
  | JObj fields =>
      match required (lit "system") as_str fields with
      | inl f => inl f
      | inr sy =>
          match required (lit "user") as_str fields with
          | inl f => inl f
          | inr us =>
              match with_default (lit "max_tokens") as_int 256%Z fields with
              | inl f => inl f
              | inr n => inr (mkQueryRequest sy us n)
              end
          end
      end
  | _ => inl (lit "body")
  end.

Definition run_handler {A} (h : M A) : Proc -> Outcome A * Proc :=
  fun s =>
    match h s with
    | (inl e, s') => (Failed e, s')
    | (inr a, s') => (Returned a, s')
    end.

(** [@app.post("/embed")] *)
Definition post_embed (body : json) : Proc -> Outcome EmbedResponse * Proc :=
  fun s =>
    match validate_EmbedRequest body with
    | inl f => (Rejected 422 f, s)
    | inr req => run_handler (embed req) s
    end.

(** [@app.post("/query")] *)
Definition post_query (body : json) : Proc -> Outcome QueryResponse * Proc :=
  fun s =>
    match validate_QueryRequest body with
    | inl f => (Rejected 422 f, s)
    | inr req => run_handler (query req) s
    end.

(** [@app.get("/health")] *)
Definition get_health : Proc -> Outcome (list (pystr * pystr)) * Proc :=
  run_handler health.

Inductive Request : Type :=
| POST_embed (body : json)
| POST_query (body : json)
| GET_health.

Inductive Response : Type :=
| EmbedResult (o : Outcome EmbedResponse)
| QueryResult (o : Outcome QueryResponse)
| HealthResult (o : Outcome (list (pystr * pystr))).

Definition serve (r : Request) (s : Proc) : Response * Proc :=
  match r with
  | POST_embed body => let (o, s') := post_embed body s in (EmbedResult o, s')
  | POST_query body => let (o, s') := post_query body s in (QueryResult o, s')
  | GET_health => let (o, s') := get_health s in (HealthResult o, s')
  end.

(** The process after serving the requests one after the other. *)
Fixpoint serve_all (rs : list Request) (s : Proc) : Proc :=
  match rs with
  | [] => s
  | r :: rs' => serve_all rs' (snd (serve r s))
  end.

(** ** Reading the history *)

(** The events added between two states of the process. *)
Definition events_since (s s' : Proc) : list Event :=
  skipn (length (trace s)) (trace s').

Definition as_generate (ev : Event)
  : option (CausalLM * kwargs * (exn + list (list Z))) :=
  match ev with
  | mkEvent c r =>
      match c as c0
            return exn + ret_type c0 ->
                   option (CausalLM * kwargs * (exn + list (list Z))) with
      | Generate m kw => fun r => Some (m, kw, r)
      | _ => fun _ => None
      end r
  end.

(** The [generate] calls of a history, in order: model, keyword arguments
    and what came back. *)
Fixpoint generate_calls (evs : list Event)
  : list (CausalLM * kwargs * (exn + list (list Z))) :=
  match evs with
  | [] => []
  | ev :: rest =>
      match as_generate ev with
      | Some g => g :: generate_calls rest
      | None => generate_calls rest
      end
  end.


(** The two turns of the transcript [query] renders. *)
Definition transcript (req : QueryRequest) : list Message :=
  [ mkMessage (lit "system") (system req); mkMessage (lit "user") (user req) ].

(** What [query] makes of the decoder's result. *)
Definition answer_of (dec : exn + list pystr) : exn + QueryResponse :=
  match dec with
  | inl e => inl e
  | inr [] => inl IndexError
  | inr (t :: _) => inr (mkQueryResponse (strip t))
  end.

(** The last four library calls of a request that returned. *)
Definition answered_by (req : QueryRequest) (d : LLMData) (text : pystr)
           (inputs : BatchEncoding) (out : list (list Z))
           (texts : list pystr) : list Event :=
  [ mkEvent (ApplyChatTemplate (llm_tokenizer d) (transcript req) false true)
            (inr text);
    mkEvent (Tokenize (llm_tokenizer d) [text] (lit "pt")) (inr inputs);
    mkEvent (Generate (llm_model d) (generate_kwargs inputs req)) (inr out);
    mkEvent (BatchDecode (llm_tokenizer d)
                         (strip_prompt (input_ids inputs) out) true)
            (inr texts) ].

(** The [generate] calls of a request carry the budget [n]. *)
Definition budget_is (n : Z) (g : CausalLM * kwargs * (exn + list (list Z)))
  : Prop :=
  kw_get (lit "max_new_tokens") (snd (fst g)) = Some (KInt n).


(** The call came back without raising. *)
Definition succeeded (ev : Event) : bool :=
  match ev_result ev with
  | inl _ => false
  | inr _ => true
  end.

Definition last_event (d : list Event) : option Event :=
  match rev d with
  | ev :: _ => Some ev
  | [] => None
  end.

(** The last call of [d] raised [e], and every call before it returned. *)
Definition raised_by_last (d : list Event) (e : exn) : Prop :=
  match rev d with
  | ev :: before =>
      ev_result ev = inl e /\ forallb succeeded before = true
  | [] => False
  end.

Definition as_tokenized (ev : Event) : option BatchEncoding :=
  match ev with
  | mkEvent c r =>
      match c as c0 return exn + ret_type c0 -> option BatchEncoding with
      | Tokenize _ _ _ =>
          fun r => match r with inr enc => Some enc | inl _ => None end
      | _ => fun _ => None
      end r
  end.

(** What the tokenizer calls of a history returned, in order. *)
Fixpoint tokenize_results (evs : list Event) : list BatchEncoding :=
  match evs with
  | [] => []
  | ev :: rest =>
      match as_tokenized ev with
      | Some enc => enc :: tokenize_results rest
      | None => tokenize_results rest
      end
  end.

(** How far a run of [query] for [req] got, read off its events [d] and its
    outcome [o]: either the tokenizer returned, once, and [generate] was
    called, once, with the keyword arguments [query] builds from what the
    tokenizer returned and from the request;
    or no [generate] call was made because the last library call made, one
    that comes before [generate], raised, and the request failed with that
    very exception. *)
Definition generate_or_earlier_failure (req : QueryRequest) (d : list Event)
           (o : Outcome QueryResponse) : Prop :=
  (exists m inputs res,
      tokenize_results d = [inputs]
      /\ generate_calls d = [ (m, generate_kwargs inputs req, res) ])
  \/ (generate_calls d = [] /\
      exists e, o = Failed e /\ raised_by_last d e).

End Sidecar.

(** ** A small backend to run the program on

    An embedding model is its dimension and a vector component is an
    integer.  Loading fails while the world is offline (and the
    world comes online after a failed attempt).  The sampler draws its
    continuation from the world's seed and, like a validating generation
    library, refuses a budget that is not positive.  Token ids are code
    points; id 0 is the end-of-sequence token, which decoding skips. *)

Record ToyWorld : Type := mkToyWorld { online : bool; seed : nat }.

Definition toy_libs : Libs := mkLibs ToyWorld nat unit unit Z.

Definition toy_OSError : exn :=
  mkExn (lit "OSError") true (lit "model files are not available").

Definition toy_ValueError : exn :=
  mkExn (lit "ValueError") true (lit "`max_new_tokens` must be greater than 0").

Definition toy_load {A} (a : A) (w : ToyWorld) : (exn + A) * ToyWorld :=
  if online w then (inr a, w) else (inl toy_OSError, mkToyWorld true (seed w)).

Definition toy_render (messages : list Message) (add_generation_prompt : bool)
  : pystr :=
  flat_map (fun m => lit "<" ++ role m ++ lit ">" ++ content m) messages
  ++ (if add_generation_prompt then lit "<assistant>" else []).

Definition toy_sample (n : nat) : list Z :=
  match Nat.modulo n 3 with
  | O => [0%Z]
  | S O => map Z.of_N (lit " Hi! ") ++ [0%Z]
  | _ => map Z.of_N (lit "Hello.") ++ [0%Z]
  end.

Definition toy_generate (kw : kwargs) (w : ToyWorld)
  : (exn + list (list Z)) * ToyWorld :=
  match kw_get (lit "max_new_tokens") kw, kw_get (lit "input_ids") kw with
  | Some (KInt n), Some (KTensor rows) =>
      if (n <=? 0)%Z then (inl toy_ValueError, w)
      else (inr (map (fun r => r ++ firstn (Z.to_nat n) (toy_sample (seed w))) rows),
            mkToyWorld (online w) (S (seed w)))
  | _, _ => (inl toy_ValueError, w)
  end.

Definition toy_decode (skip_special_tokens : bool) (row : list Z) : pystr :=
  map Z.to_N
      (if skip_special_tokens then filter (fun z => negb (z =? 0)%Z) row else row).

Definition toy_oracle (c : @Call toy_libs) (w : ToyWorld)
  : (exn + @ret_type toy_libs c) * ToyWorld :=
  match c return (exn + @ret_type toy_libs c) * ToyWorld with
  | ImportSentenceTransformers => (inr tt, w)
  | ImportTransformers => (inr tt, w)
  | ImportTorch => (inr tt, w)
  | SentenceTransformer _ => toy_load 3%nat w
  | AutoModelForCausalLM_from_pretrained _ _ _ => toy_load tt w
  | AutoTokenizer_from_pretrained _ => (inr tt, w)
  | Encode m sentences => (inr (map (fun _ => repeat 0%Z m) sentences), w)
  | ApplyChatTemplate _ messages _ agp => (inr (toy_render messages agp), w)
  | Tokenize _ texts _ =>
      (inr (mkBatchEncoding (map (map Z.of_N) texts)
                            (map (map (fun _ => 1%Z)) texts)), w)
  | Generate _ kw => toy_generate kw w
  | BatchDecode _ ids skip => (inr (map (toy_decode skip) ids), w)
  end.

Definition toy_backend : @Backend toy_libs :=
  @mkBackend toy_libs toy_oracle (fun _ => None) (fun _ => None).

(** A process that has loaded nothing yet. *)
Definition toy_fresh (on : bool) (sd : nat) : @Proc toy_libs :=
  @mkProc toy_libs None None [] (mkToyWorld on sd) [].

(** A process with both models in its cache. *)
Definition toy_loaded (sd : nat) : @Proc toy_libs :=
  @mkProc toy_libs (Some 3%nat) (Some (@mkLLMData toy_libs tt tt)) []
          (mkToyWorld true sd) [].

(** [{"system": "You are concise.", "user": "Say hi.", "max_tokens": 10}] *)
Definition say_hi_body : json :=
  JObj [ (lit "system", JStr (lit "You are concise."));
         (lit "user", JStr (lit "Say hi."));
         (lit "max_tokens", JInt 10) ].

Definition say_hi : QueryRequest :=
  mkQueryRequest (lit "You are concise.") (lit "Say hi.") 10.

(** [{"text": "hello world"}] *)
Definition hello_world_body : json :=
  JObj [ (lit "text", JStr (lit "hello world")) ].

(** [{"system": "You are concise.", "user": "Say hi.", "max_tokens": 0}] *)
Definition zero_budget_fields : list (pystr * json) :=
  [ (lit "system", JStr (lit "You are concise."));
    (lit "user", JStr (lit "Say hi."));
    (lit "max_tokens", JInt 0) ].

(** [{"system": "You are concise.", "user": "Say hi.", "max_tokens": -5}] *)
Definition negative_budget_fields : list (pystr * json) :=
  [ (lit "system", JStr (lit "You are concise."));
    (lit "user", JStr (lit "Say hi."));
    (lit "max_tokens", JInt (-5)) ].

(** [{"system": "You are concise.", "user": "Say hi."}] *)
Definition no_budget_fields : list (pystr * json) :=
  [ (lit "system", JStr (lit "You are concise."));
    (lit "user", JStr (lit "Say hi.")) ].





(** ** Facts about [strip] *)

Lemma lstrip_head (s : pystr) :
  match lstrip s with [] => True | c :: _ => py_isspace c = false end.
Proof.
  induction s as [|c t IH]; simpl; [exact I|].
  destruct (py_isspace c) eqn:E; [exact IH | exact E].
Qed.

Lemma rstrip_head (s : pystr) :
  match rstrip s, s with
  | c :: _, d :: _ => c = d
  | _, _ => True
  end.
Proof.
  destruct s as [|d t]; simpl; [exact I|].
  destruct (rstrip t); [destruct (py_isspace d)|]; auto.
Qed.

Lemma rstrip_last (s : pystr) (d : N) :
  rstrip s = [] \/ py_isspace (last (rstrip s) d) = false.
Proof.
  induction s as [|c t IH]; simpl; [now left|].
  destruct (rstrip t) as [|x r] eqn:E.
  - destruct (py_isspace c) eqn:Ec; [now left | right; exact Ec].
  - right. destruct IH as [IH|IH]; [discriminate|].
    change (last (c :: x :: r) d) with (last (x :: r) d). exact IH.
Qed.

Lemma strip_trimmed (s : pystr) : trimmed (strip s).
Proof.
  unfold strip, trimmed.
  pose proof (lstrip_head s) as Hh.
  pose proof (rstrip_head (lstrip s)) as Hr.
  destruct (rstrip (lstrip s)) as [|c r] eqn:E; [exact I|].
  destruct (lstrip s) as [|d t] eqn:El.
  - simpl in E. discriminate.
  - subst d. split; [exact Hh|].
    destruct (rstrip_last (c :: t) c) as [H|H]; rewrite E in H;
      [discriminate | exact H].
Qed.

Lemma rstrip_nil_iff (s : pystr) :
  rstrip s = [] <-> has_visible_char s = false.
Proof.
  unfold has_visible_char.
  induction s as [|c t IH]; simpl; [tauto|].
  destruct (rstrip t) as [|x r] eqn:E.
  - destruct (py_isspace c); simpl.
    + split; intros _; [apply IH|]; reflexivity.
    + split; discriminate.
  - split; [discriminate|].
    intros H. apply orb_false_iff in H as [_ H].
    apply IH in H. discriminate.
Qed.

Lemma lstrip_visible (s : pystr) :
  has_visible_char (lstrip s) = has_visible_char s.
Proof.
  unfold has_visible_char.
  induction s as [|c t IH]; simpl; [reflexivity|].
  destruct (py_isspace c) eqn:E; simpl; [exact IH | now rewrite E].
Qed.

Lemma strip_nil_iff (s : pystr) :
  strip s = [] <-> has_visible_char s = false.
Proof.
  unfold strip. rewrite rstrip_nil_iff. now rewrite lstrip_visible.
Qed.

(** ** Facts about the prompt slice *)


Lemma strip_prompt_nth (ins outs : list (list Z)) (i : nat) (inp out : list Z) :
  nth_error ins i = Some inp ->
  nth_error outs i = Some out ->
  nth_error (strip_prompt ins outs) i = Some (skipn (length inp) out).
Proof.
  unfold strip_prompt.
  revert outs i.
  induction ins as [|a ins IH]; intros [|b outs] [|i] Hi Ho;
    simpl in *; try discriminate.
  - injection Hi as <-. injection Ho as <-. reflexivity.
  - apply IH; assumption.
Qed.

(** ** Facts about the program *)

Arguments lit : simpl never.

Section Facts.

Context {L : Libs} {B : Backend}.

Implicit Types (s : Proc) (e : exn).

(** Unfold the plumbing and follow every way the library calls can go. *)
Ltac unfold_program :=
  unfold query, embed, get_embed_model, get_llm_model, with_no_grad, index0,
    try_except_Exception, bind, call, print, raise, ret,
    read_embed_model, write_embed_model, read_llm_model, write_llm_model in *;
  cbv beta iota in *.

Ltac fork :=
  match goal with
  | |- context [oracle ?c ?w] =>
      let r := fresh "r" in
      let w' := fresh "w" in
      let E := fresh "E" in
      destruct (oracle c w) as [[r|r] w'] eqn:E
  | |- context [exn_is_Exception ?e] =>
      let E := fresh "Ex" in
      destruct (exn_is_Exception e) eqn:E
  | |- context [match ?l with [] => _ | _ :: _ => _ end] =>
      is_var l; destruct l
  end.

Ltac forks := repeat (cbn [fst snd _embed_model _llm_model trace world stdout]; fork).

Ltac trace_eq :=
  cbn [trace]; repeat rewrite <- app_assoc; cbn [app]; try reflexivity.

(** Name the last event of a grown trace and what precedes it. *)
Ltac last_event :=
  cbn [trace]; repeat rewrite <- app_assoc; cbn [app];
  match goal with
  | |- exists pre c, _ ++ [mkEvent ?c0 _] = _ =>
      exists [], c0; reflexivity
  | |- exists pre c, _ ++ [?a; mkEvent ?c0 _] = _ =>
      exists [a], c0; reflexivity
  | |- exists pre c, _ ++ [?a; ?b; mkEvent ?c0 _] = _ =>
      exists [a; b], c0; reflexivity
  end.

Lemma events_since_app s s' (d : list Event) :
  trace s' = trace s ++ d -> events_since s s' = d.
Proof.
  unfold events_since. intros ->.
  rewrite skipn_app, skipn_all, Nat.sub_diag. reflexivity.
Qed.

Lemma generate_calls_app (a b : list Event) :
  generate_calls (a ++ b) = generate_calls a ++ generate_calls b.
Proof.
  induction a as [|ev a IH]; simpl; [reflexivity|].
  destruct (as_generate ev); simpl; now rewrite IH.
Qed.

(** *** The accessors *)

Lemma get_embed_model_hit s (m : EmbedModel) :
  _embed_model s = Some m -> get_embed_model s = (inr (Some m), s).
Proof.
  intros H. unfold_program. repeat (rewrite H; cbv beta iota). reflexivity.
Qed.

Lemma get_llm_model_hit s (d : LLMData) :
  _llm_model s = Some d -> get_llm_model s = (inr (Some d), s).
Proof.
  intros H. unfold_program. repeat (rewrite H; cbv beta iota). reflexivity.
Qed.

Lemma get_embed_model_loads s r s' :
  _embed_model s = None -> get_embed_model s = (inr r, s') ->
  exists m : EmbedModel,
    r = Some m /\ _embed_model s' = Some m /\ _llm_model s' = _llm_model s /\
    trace s' = trace s ++
      [ mkEvent ImportSentenceTransformers (inr tt);
        mkEvent (SentenceTransformer (lit "sentence-transformers/all-MiniLM-L6-v2"))
                (inr m) ].
Proof.
  intros H. unfold_program. rewrite H. forks; intros Heq; try discriminate.
  injection Heq as <- <-. destruct r0. eexists. repeat split. trace_eq.
Qed.

Lemma get_embed_model_raises s e s' :
  get_embed_model s = (inl e, s') ->
  _embed_model s = None /\ _embed_model s' = None /\
  _llm_model s' = _llm_model s /\
  exists (pre : list Event) (c : Call),
    trace s' = trace s ++ pre ++ [mkEvent c (inl e)].
Proof.
  unfold_program. destruct (_embed_model s) eqn:H.
  - cbv beta iota. discriminate.
  - forks; intros Heq; try discriminate; injection Heq as <- <-;
      (repeat split; try assumption); last_event.
Qed.

Lemma get_embed_model_attempts s :
  _embed_model s = None ->
  exists r rest,
    trace (snd (get_embed_model s))
    = trace s ++ mkEvent ImportSentenceTransformers r :: rest /\
    match r with
    | inl _ => rest = []
    | inr _ =>
        exists r2,
          rest = [ mkEvent (SentenceTransformer
                              (lit "sentence-transformers/all-MiniLM-L6-v2")) r2 ]
    end.
Proof.
  intros H. unfold_program. rewrite H.
  forks; eexists; eexists; (split; [trace_eq|]); cbv beta iota;
    try reflexivity; eexists; reflexivity.
Qed.

Lemma get_llm_model_loads s r s' :
  _llm_model s = None -> get_llm_model s = (inr r, s') ->
  exists (m : CausalLM) (t : Tokenizer),
    r = Some (mkLLMData m t) /\ _llm_model s' = Some (mkLLMData m t) /\
    _embed_model s' = _embed_model s /\
    trace s' = trace s ++
      [ mkEvent ImportTransformers (inr tt);
        mkEvent (AutoModelForCausalLM_from_pretrained
                   (lit "Qwen/Qwen2.5-1.5B-Instruct") (lit "cpu") (lit "auto"))
                (inr m);
        mkEvent (AutoTokenizer_from_pretrained (lit "Qwen/Qwen2.5-1.5B-Instruct"))
                (inr t) ].
Proof.
  intros H. unfold_program. rewrite H. forks; intros Heq; try discriminate.
  injection Heq as <- <-. destruct r0. do 2 eexists. repeat split. trace_eq.
Qed.

Lemma get_llm_model_raises s e s' :
  get_llm_model s = (inl e, s') ->
  _llm_model s = None /\ _llm_model s' = None /\
  _embed_model s' = _embed_model s /\
  exists (pre : list Event) (c : Call),
    trace s' = trace s ++ pre ++ [mkEvent c (inl e)].
Proof.
  unfold_program. destruct (_llm_model s) eqn:H.
  - cbv beta iota. discriminate.
  - forks; intros Heq; try discriminate; injection Heq as <- <-;
      (repeat split; try assumption); last_event.
Qed.

Lemma get_llm_model_attempts s :
  _llm_model s = None ->
  exists r rest,
    trace (snd (get_llm_model s))
    = trace s ++ mkEvent ImportTransformers r :: rest /\
    match r with
    | inl _ => rest = []
    | inr _ =>
        exists r2 rest',
          rest = mkEvent (AutoModelForCausalLM_from_pretrained
                            (lit "Qwen/Qwen2.5-1.5B-Instruct")
                            (lit "cpu") (lit "auto")) r2 :: rest'
    end.
Proof.
  intros H. unfold_program. rewrite H.
  forks; eexists; eexists; (split; [trace_eq|]); cbv beta iota;
    try reflexivity; do 2 eexists; reflexivity.
Qed.

(** *** The handlers *)

(** Split a grown trace for [query_run]. *)
Ltac flatten_trace :=
  cbn [trace]; repeat rewrite <- app_assoc; cbn [app].

Ltac split_trace :=
  first
    [ match goal with
      | |- context [mkProc _ (Some ?d) _ _ _] =>
          flatten_trace;
          match goal with
          | |- context [trace _ ++ ?l] =>
              first
                [ exists (firstn (length l - 4) l); cbn [firstn length Nat.sub];
                  split; [reflexivity|];
                  right; right; exists d; do 4 eexists; split; reflexivity
                | exists (removelast l); cbn [removelast];
                  split; [reflexivity|];
                  right; left; exists d; do 2 eexists; split; reflexivity ]
          end
      end
    | flatten_trace;
      match goal with
      | |- context [trace _ ++ ?l] =>
          exists l; split; [reflexivity|]; left; eexists; split; reflexivity
      end ].

(** Every run of [query], by how far it got: it raised before reaching
    [generate]; or [generate] raised; or [generate] returned and the answer
    is what the decoder gave for the sliced rows. *)
Lemma query_run (req : QueryRequest) s r s' :
  query req s = (r, s') ->
  exists pre : list Event,
    generate_calls pre = [] /\
    ( (exists e, r = inl e /\ trace s' = trace s ++ pre)
      \/ (exists (d : LLMData) inputs e,
             r = inl e /\
             trace s' = trace s ++ pre ++
               [ mkEvent (Generate (llm_model d) (generate_kwargs inputs req))
                         (inl e) ])
      \/ (exists (d : LLMData) text inputs out dec,
             trace s' = trace s ++ pre ++
               [ mkEvent (ApplyChatTemplate (llm_tokenizer d) (transcript req)
                                            false true) (inr text);
                 mkEvent (Tokenize (llm_tokenizer d) [text] (lit "pt"))
                         (inr inputs);
                 mkEvent (Generate (llm_model d) (generate_kwargs inputs req))
                         (inr out);
                 mkEvent (BatchDecode (llm_tokenizer d)
                            (strip_prompt (input_ids inputs) out) true) dec ]
             /\ r = answer_of dec) ).
Proof.
  unfold transcript, answer_of. unfold_program.
  destruct (oracle ImportTorch (world s)) as [[e0|[]] w0] eqn:E0;
    cbn [fst snd _embed_model _llm_model trace world stdout].
  - intros Heq; injection Heq as <- <-. split_trace.
  - destruct (_llm_model s) as [d|] eqn:H; cbv beta iota;
      forks; intros Heq; injection Heq as <- <-; split_trace.
Qed.

Lemma embed_run (req : EmbedRequest) s (r : EmbedResponse) s' :
  embed req s = (inr r, s') ->
  exists (m : EmbedModel) w0 rows w1,
    _embed_model s' = Some m /\ _llm_model s' = _llm_model s /\
    oracle (Encode m [text req]) w0 = (inr (embedding r :: rows), w1).
Proof.
  unfold_program.
  destruct (_embed_model s) as [m|] eqn:H; cbv beta iota; rewrite ?H;
    cbv beta iota; forks; intros Heq; try discriminate; injection Heq as <- <-;
    do 4 eexists; cbn [embedding _embed_model _llm_model];
    (split; [reflexivity | split; [reflexivity | eassumption]]).
Qed.

(** *** A loaded slot stays loaded *)

Lemma embed_keeps_slots (req : EmbedRequest) s :
  (forall m, _embed_model s = Some m ->
             _embed_model (snd (embed req s)) = Some m) /\
  (forall d, _llm_model s = Some d ->
             _llm_model (snd (embed req s)) = Some d).
Proof.
  unfold_program.
  destruct (_embed_model s) as [m|] eqn:H; cbv beta iota; rewrite ?H;
    cbv beta iota; forks; split; intros ? Hs; cbn [snd _embed_model _llm_model];
    congruence.
Qed.

Lemma query_keeps_slots (req : QueryRequest) s :
  (forall m, _embed_model s = Some m ->
             _embed_model (snd (query req s)) = Some m) /\
  (forall d, _llm_model s = Some d ->
             _llm_model (snd (query req s)) = Some d).
Proof.
  unfold_program.
  destruct (oracle ImportTorch (world s)) as [[e0|[]] w0] eqn:E0;
    cbn [fst snd _embed_model _llm_model trace world stdout].
  - split; intros ? Hs; exact Hs.
  - destruct (_llm_model s) as [d|] eqn:H; cbv beta iota;
      forks; split; intros ? Hs; cbn [snd _embed_model _llm_model];
      congruence.
Qed.

Lemma serve_keeps_slots (r : Request) s :
  (forall m, _embed_model s = Some m ->
             _embed_model (snd (serve r s)) = Some m) /\
  (forall d, _llm_model s = Some d ->
             _llm_model (snd (serve r s)) = Some d).
Proof.
  destruct r as [body|body|]; unfold serve.
  - unfold post_embed, run_handler.
    destruct (validate_EmbedRequest body) as [f|req]; [now split|].
    pose proof (embed_keeps_slots req s) as K.
    destruct (embed req s) as [[e|a] s1]; exact K.
  - unfold post_query, run_handler.
    destruct (validate_QueryRequest body) as [f|req]; [now split|].
    pose proof (query_keeps_slots req s) as K.
    destruct (query req s) as [[e|a] s1]; exact K.
  - now split.
Qed.

Lemma serve_all_keeps_slots (rs : list Request) s :
  (forall m, _embed_model s = Some m ->
             _embed_model (serve_all rs s) = Some m) /\
  (forall d, _llm_model s = Some d ->
             _llm_model (serve_all rs s) = Some d).
Proof.
  revert s. induction rs as [|r rs IH]; intros s; [now split|].
  destruct (serve_keeps_slots r s) as [K1 K2].
  destruct (IH (snd (serve r s))) as [I1 I2].
  split; intros x Hx; simpl; [apply I1, K1 | apply I2, K2]; exact Hx.
Qed.

(** *** The model loader *)

(** C1.  Each accessor ([get_embed_model], [get_llm_model]) is a load-once
    cache.  On a loaded slot it returns the cached handle and leaves the
    whole process as it was, so nothing is constructed again.  On an empty
    slot a successful call makes the import and the constructor calls, stores
    the handle it returns and returns it.  A call that raises was made on an
    empty slot and leaves it empty, and the exception is the one the failing
    library call raised; any call on an empty slot starts a new construction
    attempt.  A loaded slot stays loaded with the same handle whatever
    requests are served afterwards. *)
Theorem model_accessors_load_once :
  ( (forall s (m : EmbedModel),
        _embed_model s = Some m -> get_embed_model s = (inr (Some m), s))
    /\ (forall s r s',
          _embed_model s = None -> get_embed_model s = (inr r, s') ->
          exists m : EmbedModel,
            r = Some m /\ _embed_model s' = Some m /\
            trace s' = trace s ++
              [ mkEvent ImportSentenceTransformers (inr tt);
                mkEvent (SentenceTransformer
                           (lit "sentence-transformers/all-MiniLM-L6-v2"))
                        (inr m) ])
    /\ (forall s e s',
          get_embed_model s = (inl e, s') ->
          _embed_model s = None /\ _embed_model s' = None /\
          exists (pre : list Event) (c : Call),
            trace s' = trace s ++ pre ++ [mkEvent c (inl e)])
    /\ (forall s,
          _embed_model s = None ->
          exists r rest,
            trace (snd (get_embed_model s))
            = trace s ++ mkEvent ImportSentenceTransformers r :: rest /\
            match r with
            | inl _ => rest = []
            | inr _ =>
                exists r2,
                  rest = [ mkEvent (SentenceTransformer
                             (lit "sentence-transformers/all-MiniLM-L6-v2")) r2 ]
            end)
    /\ (forall rs s (m : EmbedModel),
          _embed_model s = Some m -> _embed_model (serve_all rs s) = Some m) )
  /\
  ( (forall s (d : LLMData),
        _llm_model s = Some d -> get_llm_model s = (inr (Some d), s))
    /\ (forall s r s',
          _llm_model s = None -> get_llm_model s = (inr r, s') ->
          exists (m : CausalLM) (t : Tokenizer),
            r = Some (mkLLMData m t) /\ _llm_model s' = Some (mkLLMData m t) /\
            trace s' = trace s ++
              [ mkEvent ImportTransformers (inr tt);
                mkEvent (AutoModelForCausalLM_from_pretrained
                           (lit "Qwen/Qwen2.5-1.5B-Instruct")
                           (lit "cpu") (lit "auto"))
                        (inr m);
                mkEvent (AutoTokenizer_from_pretrained
                           (lit "Qwen/Qwen2.5-1.5B-Instruct"))
                        (inr t) ])
    /\ (forall s e s',
          get_llm_model s = (inl e, s') ->
          _llm_model s = None /\ _llm_model s' = None /\
          exists (pre : list Event) (c : Call),
            trace s' = trace s ++ pre ++ [mkEvent c (inl e)])
    /\ (forall s,
          _llm_model s = None ->
          exists r rest,
            trace (snd (get_llm_model s))
            = trace s ++ mkEvent ImportTransformers r :: rest /\
            match r with
            | inl _ => rest = []
            | inr _ =>
                exists r2 rest',
                  rest = mkEvent (AutoModelForCausalLM_from_pretrained
                                    (lit "Qwen/Qwen2.5-1.5B-Instruct")
                                    (lit "cpu") (lit "auto")) r2 :: rest'
            end)
    /\ (forall rs s (d : LLMData),
          _llm_model s = Some d -> _llm_model (serve_all rs s) = Some d) ).
Proof.
  split; repeat apply conj.
  - exact get_embed_model_hit.
  - intros s r s' H1 H2.
    destruct (get_embed_model_loads s r s' H1 H2) as (m & ? & ? & _ & ?).
    exists m. auto.
  - intros s e s' H.
    destruct (get_embed_model_raises s e s' H) as (? & ? & _ & ?). auto.
  - exact get_embed_model_attempts.
  - intros rs s. apply serve_all_keeps_slots.
  - exact get_llm_model_hit.
  - intros s r s' H1 H2.
    destruct (get_llm_model_loads s r s' H1 H2) as (m & t & ? & ? & _ & ?).
    exists m, t. auto.
  - intros s e s' H.
    destruct (get_llm_model_raises s e s' H) as (? & ? & _ & ?). auto.
  - exact get_llm_model_attempts.
  - intros rs s. apply serve_all_keeps_slots.
Qed.

(** *** Health *)

(** C4.  [GET /health] answers [{"status": "ok"}] from every state of the
    process and hands the process back exactly as it found it: both cache
    slots, the outside world and the history of library calls are untouched,
    and the answer is the same whatever the state. *)
Theorem health_always_ok :
  (forall s, health s = (inr [ (lit "status", lit "ok") ], s))
  /\ (forall s,
        serve GET_health s
        = (HealthResult (Returned [ (lit "status", lit "ok") ]), s))
  /\ (forall s1 s2, fst (health s1) = fst (health s2)).
Proof.
  repeat split.
Qed.

(** *** Validation *)

(** C8.  A body without a ["text"] member never reaches the handler of
    [POST /embed]: the request is rejected with status 422, a client error,
    and the process is left exactly as it was (no model is loaded, nothing
    is encoded). *)
Theorem embed_missing_text_rejected (body : json) s :
  has_field (lit "text") body = false ->
  exists f,
    post_embed body s = (Rejected 422 f, s)
    /\ client_error 422 = true
    /\ serve (POST_embed body) s = (EmbedResult (Rejected 422 f), s).
Proof.
  intros H.
  assert (exists f, validate_EmbedRequest body = inl f) as [f Hf].
  { destruct body; try (eexists; reflexivity).
    unfold has_field in H. unfold validate_EmbedRequest, required.
    destruct (obj_get (lit "text") fields); [discriminate|].
    eexists; reflexivity. }
  exists f. unfold serve, post_embed. rewrite Hf. repeat split.
Qed.

(** *** What [query] hands to [generate] *)

Lemma generate_kwargs_budget (inputs : BatchEncoding) (req : QueryRequest) :
  kw_get (lit "max_new_tokens") (generate_kwargs inputs req)
  = Some (KInt (max_tokens req)).
Proof. reflexivity. Qed.

Lemma generate_kwargs_temperature (inputs : BatchEncoding) (req : QueryRequest) :
  kw_get (lit "temperature") (generate_kwargs inputs req) = Some (KFloat 0.2).
Proof. reflexivity. Qed.

Lemma generate_kwargs_no_do_sample (inputs : BatchEncoding) (req : QueryRequest) :
  kw_get (lit "do_sample") (generate_kwargs inputs req) = None.
Proof. reflexivity. Qed.

(** A run of [query] calls [generate] at most once, with the keyword
    arguments built from the request; when that call raises, so does the
    handler, and when the handler returns, the call was made and returned. *)
Lemma query_generate_calls (req : QueryRequest) s r s' :
  query req s = (r, s') ->
  (generate_calls (events_since s s') = [] /\ exists e, r = inl e)
  \/ (exists (d : LLMData) inputs res,
         generate_calls (events_since s s')
         = [ (llm_model d, generate_kwargs inputs req, res) ]
         /\ (forall e, res = inl e -> r = inl e)
         /\ (forall a, r = inr a -> exists out, res = inr out)).
Proof.
  intros H.
  destruct (query_run req s r s' H) as (pre & Hpre & [C|[C|C]]).
  - destruct C as (e & -> & Ht). left.
    rewrite (events_since_app _ _ _ Ht). split; [exact Hpre | now exists e].
  - destruct C as (d & inputs & e & -> & Ht). right.
    exists d, inputs, (inl e).
    rewrite (events_since_app _ _ _ Ht), generate_calls_app, Hpre.
    repeat split; [congruence | discriminate].
  - destruct C as (d & text & inputs & out & dec & Ht & ->). right.
    exists d, inputs, (inr out).
    rewrite (events_since_app _ _ _ Ht), generate_calls_app, Hpre.
    repeat split; [discriminate | intros; now exists out].
Qed.

Lemma post_query_run (body : json) s o s' :
  post_query body s = (o, s') ->
  (exists f, validate_QueryRequest body = inl f /\ o = Rejected 422 f /\ s' = s)
  \/ (exists req r,
         validate_QueryRequest body = inr req /\ query req s = (r, s') /\
         o = match r with inl e => Failed e | inr a => Returned a end).
Proof.
  unfold post_query, run_handler.
  destruct (validate_QueryRequest body) as [f|req].
  - intros H; injection H as <- <-. left. now exists f.
  - destruct (query req s) as [[e|a] s1] eqn:Hq; intros H;
      injection H as <- <-; right;
      [exists req, (inl e) | exists req, (inr a)]; auto.
Qed.

Lemma post_embed_returned (body : json) s (a : EmbedResponse) s' :
  post_embed body s = (Returned a, s') ->
  exists req, validate_EmbedRequest body = inr req /\ embed req s = (inr a, s').
Proof.
  unfold post_embed, run_handler.
  destruct (validate_EmbedRequest body) as [f|req]; [discriminate|].
  destruct (embed req s) as [[e|a'] s1] eqn:He; intros H; [discriminate|].
  injection H as <- <-. now exists req.
Qed.

(** A body whose three members have their declared JSON types. *)
Lemma validate_QueryRequest_exact fields (sy us : pystr) (n : Z) :
  obj_get (lit "system") fields = Some (JStr sy) ->
  obj_get (lit "user") fields = Some (JStr us) ->
  obj_get (lit "max_tokens") fields = Some (JInt n) ->
  validate_QueryRequest (JObj fields) = inr (mkQueryRequest sy us n).
Proof.
  intros H1 H2 H3. unfold validate_QueryRequest, required, with_default.
  rewrite H1, H2, H3. reflexivity.
Qed.

Lemma post_query_budget (body : json) (req : QueryRequest) s o s' :
  validate_QueryRequest body = inr req ->
  post_query body s = (o, s') ->
  Forall (budget_is (max_tokens req)) (generate_calls (events_since s s'))
  /\ (forall a, o = Returned a ->
        exists m kw out,
          generate_calls (events_since s s') = [ (m, kw, inr out) ])
  /\ (forall m kw e,
        In (m, kw, inl e) (generate_calls (events_since s s')) -> o = Failed e).
Proof.
  intros Hv Hp.
  destruct (post_query_run body s o s' Hp)
    as [(f & Hf & _)|(req' & r & Hv' & Hq & ->)]; [congruence|].
  assert (req' = req) by congruence. subst req'.
  destruct (query_generate_calls req s r s' Hq)
    as [(Hg & e & ->)|(d & inputs & res & Hg & Hraise & Hret)]; rewrite Hg.
  - repeat split; [constructor | discriminate | intros ? ? ? []].
  - repeat split.
    + repeat constructor.
    + intros a Ha. destruct r as [e|a']; [discriminate|].
      destruct (Hret a' eq_refl) as [out ->]. now do 3 eexists.
    + intros m kw e [Hin|[]]. injection Hin as _ _ ->.
      now rewrite (Hraise e eq_refl).
Qed.

(** A run of [query] gets to [generate] unless a library call before it
    raises. *)
Lemma query_reaches_generate (req : QueryRequest) s r s' :
  query req s = (r, s') ->
  exists d,
    trace s' = trace s ++ d
    /\ ((exists m inputs res,
            tokenize_results d = [inputs]
            /\ generate_calls d = [ (m, generate_kwargs inputs req, res) ])
        \/ (generate_calls d = [] /\
            exists e, r = inl e /\ raised_by_last d e)).
Proof.
  unfold raised_by_last. unfold_program.
  destruct (oracle ImportTorch (world s)) as [[e0|[]] w0] eqn:E0;
    cbn [fst snd _embed_model _llm_model trace world stdout].
  - intros Heq; injection Heq as <- <-.
    eexists; (split; [flatten_trace; reflexivity|]).
    right. split; [reflexivity|]. eexists. repeat split.
  - destruct (_llm_model s) as [c|] eqn:H; cbv beta iota;
      forks; intros Heq; injection Heq as <- <-;
      eexists; (split; [flatten_trace; reflexivity|]);
      first [ left; do 3 eexists; split; reflexivity
            | right; split; [reflexivity|]; eexists; repeat split ].
Qed.

Lemma post_query_reaches_generate (body : json) (req : QueryRequest) s o s' :
  validate_QueryRequest body = inr req ->
  post_query body s = (o, s') ->
  generate_or_earlier_failure req (events_since s s') o.
Proof.
  intros Hv Hp.
  destruct (post_query_run body s o s' Hp)
    as [(f & Hf & _)|(req' & r & Hv' & Hq & ->)]; [congruence|].
  assert (req' = req) by congruence. subst req'.
  destruct (query_reaches_generate req s r s' Hq) as (d & Ht & [G|(G & e & -> & R)]).
  - left. now rewrite (events_since_app _ _ _ Ht).
  - right. rewrite (events_since_app _ _ _ Ht). split; [exact G|]. now exists e.
Qed.

(** C9.  A [POST /query] body that gives ["system"] and ["user"] and leaves
    ["max_tokens"] out is accepted, with [max_tokens = 256], and 256 is the
    generation budget: the request calls [generate], once, with the keyword
    arguments built from the tokenizer's output and [max_new_tokens = 256],
    unless a library call before [generate] raises, in which case the
    request fails with that call's exception.  A request that returns has
    made exactly that one [generate] call, and it returned. *)
Theorem query_default_budget fields (sy us : pystr) :
  obj_get (lit "system") fields = Some (JStr sy) ->
  obj_get (lit "user") fields = Some (JStr us) ->
  obj_get (lit "max_tokens") fields = None ->
  validate_QueryRequest (JObj fields) = inr (mkQueryRequest sy us 256)
  /\ forall s o s',
       post_query (JObj fields) s = (o, s') ->
       (forall st f, o <> Rejected st f)
       /\ Forall (budget_is 256) (generate_calls (events_since s s'))
       /\ (forall a, o = Returned a ->
             exists m kw out,
               generate_calls (events_since s s') = [ (m, kw, inr out) ])
       /\ generate_or_earlier_failure (mkQueryRequest sy us 256)
                                      (events_since s s') o.
Proof.
  intros H1 H2 H3.
  assert (validate_QueryRequest (JObj fields) = inr (mkQueryRequest sy us 256))
    as Hv.
  { unfold validate_QueryRequest, required, with_default.
    rewrite H1, H2, H3. reflexivity. }
  split; [exact Hv|].
  intros s o s' Hp.
  destruct (post_query_budget _ _ s o s' Hv Hp) as (Hb & Hr & _).
  repeat split;
    [|exact Hb|exact Hr|exact (post_query_reaches_generate _ _ s o s' Hv Hp)].
  intros st f ->.
  destruct (post_query_run _ s _ s' Hp)
    as [(f' & Hf & _)|(req & r & _ & _ & Ho)]; [congruence|].
  destruct r; discriminate.
Qed.

(** C10.  A negative ["max_tokens"] passes validation as it is, and the
    program checks no range: the request calls [generate], once, with the
    keyword arguments built from the tokenizer's output and that same
    negative number as [max_new_tokens], unless a library call before
    [generate] raises, in which case the request fails with that call's
    exception.  The handler itself never refuses the value. *)
Theorem query_negative_budget_passed_on fields (sy us : pystr) (n : Z) :
  (n < 0)%Z ->
  obj_get (lit "system") fields = Some (JStr sy) ->
  obj_get (lit "user") fields = Some (JStr us) ->
  obj_get (lit "max_tokens") fields = Some (JInt n) ->
  validate_QueryRequest (JObj fields) = inr (mkQueryRequest sy us n)
  /\ forall s o s',
       post_query (JObj fields) s = (o, s') ->
       (forall st f, o <> Rejected st f)
       /\ Forall (budget_is n) (generate_calls (events_since s s'))
       /\ (forall a, o = Returned a ->
             exists m kw out,
               generate_calls (events_since s s') = [ (m, kw, inr out) ])
       /\ generate_or_earlier_failure (mkQueryRequest sy us n)
                                      (events_since s s') o.
Proof.
  intros _ H1 H2 H3.
  pose proof (validate_QueryRequest_exact fields sy us n H1 H2 H3) as Hv.
  split; [exact Hv|].
  intros s o s' Hp.
  destruct (post_query_budget _ _ s o s' Hv Hp) as (Hb & Hr & _).
  repeat split;
    [|exact Hb|exact Hr|exact (post_query_reaches_generate _ _ s o s' Hv Hp)].
  intros st f ->.
  destruct (post_query_run _ s _ s' Hp)
    as [(f' & Hf & _)|(req & r & _ & _ & Ho)]; [congruence|].
  destruct r; discriminate.
Qed.

(** *** The answer *)

Lemma post_query_returned (body : json) s (a : QueryResponse) s' :
  post_query body s = (Returned a, s') ->
  exists req pre d text inputs out t rest,
    validate_QueryRequest body = inr req
    /\ trace s' = trace s ++ pre ++ answered_by req d text inputs out (t :: rest)
    /\ answer a = strip t.
Proof.
  intros Hp.
  destruct (post_query_run _ s _ s' Hp)
    as [(f & _ & Ho & _)|(req & r & Hv & Hq & Ho)]; [discriminate|].
  destruct r as [e|a']; [discriminate|]. injection Ho as ->.
  destruct (query_run req s _ s' Hq) as (pre & _ & [C|[C|C]]).
  - destruct C as (e & He & _). discriminate.
  - destruct C as (d & inputs & e & He & _). discriminate.
  - destruct C as (d & text & inputs & out & dec & Ht & Ha).
    destruct dec as [e|[|t rest]]; try discriminate.
    injection Ha as ->.
    exists req, pre, d, text, inputs, out, t, rest. auto.
Qed.

Lemma strip_prompt_self (ins : list (list Z)) :
  strip_prompt ins ins = map (fun _ => []) ins.
Proof.
  unfold strip_prompt.
  induction ins as [|i ins IH]; simpl; [reflexivity|].
  now rewrite skipn_all, IH.
Qed.


(** C6, as amended.  The answer of a [/query] request that returned has no
    whitespace at either end; it is the trimmed first text of the decoder,
    and it is non-empty exactly when that text holds a character that is
    not whitespace.  The request
    [{"system": "You are concise.", "user": "Say hi.", "max_tokens": 10}]
    is accepted, with these three values. *)
Theorem query_answer_trimmed (body : json) s (a : QueryResponse) s' :
  post_query body s = (Returned a, s') ->
  trimmed (answer a)
  /\ (exists req pre d text inputs out t rest,
        validate_QueryRequest body = inr req
        /\ trace s' = trace s ++ pre
                      ++ answered_by req d text inputs out (t :: rest)
        /\ answer a = strip t
        /\ (0 < length (answer a) <-> has_visible_char t = true))
  /\ validate_QueryRequest say_hi_body = inr say_hi.
Proof.
  intros Hp.
  destruct (post_query_returned body s a s' Hp)
    as (req & pre & d & text & inputs & out & t & rest & Hv & Ht & Ha).
  split; [rewrite Ha; apply strip_trimmed|].
  split; [|reflexivity].
  exists req, pre, d, text, inputs, out, t, rest.
  repeat split; try assumption; rewrite Ha.
  - intros Hlen. destruct (has_visible_char t) eqn:E; [reflexivity|].
    apply strip_nil_iff in E. rewrite E in Hlen. simpl in Hlen. lia.
  - intros Hvis. destruct (strip t) eqn:E; [|simpl; lia].
    apply strip_nil_iff in E. congruence.
Qed.

(** C5, as amended.  A body with ["max_tokens": 0] is accepted and the
    handler has no case of its own for the value: the request calls
    [generate], once, with the keyword arguments built from the tokenizer's
    output and [max_new_tokens = 0], unless a library call before
    [generate] raises, in which case the request fails with that call's
    exception.  When [generate] raises, the request fails with that
    exception; when the request returns, the answer is the trimmed first
    text decoded from the output rows without their prompt, so when the
    output is the prompt alone the decoder is handed empty rows, and the
    answer is empty when the text decoded from them holds nothing but
    whitespace. *)
Theorem query_zero_budget fields (sy us : pystr) :
  obj_get (lit "system") fields = Some (JStr sy) ->
  obj_get (lit "user") fields = Some (JStr us) ->
  obj_get (lit "max_tokens") fields = Some (JInt 0) ->
  validate_QueryRequest (JObj fields) = inr (mkQueryRequest sy us 0)
  /\ forall s o s',
       post_query (JObj fields) s = (o, s') ->
       (forall st f, o <> Rejected st f)
       /\ generate_or_earlier_failure (mkQueryRequest sy us 0)
                                      (events_since s s') o
       /\ Forall (budget_is 0) (generate_calls (events_since s s'))
       /\ (forall m kw e,
             In (m, kw, inl e) (generate_calls (events_since s s')) ->
             o = Failed e)
       /\ (forall a, o = Returned a ->
             exists pre d text inputs out t rest,
               trace s' = trace s ++ pre
                 ++ answered_by (mkQueryRequest sy us 0) d text inputs out
                                (t :: rest)
               /\ answer a = strip t
               /\ (out = input_ids inputs ->
                   strip_prompt (input_ids inputs) out
                   = map (fun _ => []) (input_ids inputs))
               /\ (has_visible_char t = false -> answer a = [])).
Proof.
  intros H1 H2 H3.
  pose proof (validate_QueryRequest_exact fields sy us 0 H1 H2 H3) as Hv.
  split; [exact Hv|].
  intros s o s' Hp.
  destruct (post_query_budget _ _ s o s' Hv Hp) as (Hb & _ & Hf).
  split.
  { intros st f ->.
    destruct (post_query_run _ s _ s' Hp)
      as [(f' & Hf' & _)|(req & r & _ & _ & Ho)]; [congruence|].
    destruct r; discriminate. }
  split; [exact (post_query_reaches_generate _ _ s o s' Hv Hp)|].
  repeat split; [exact Hb|exact Hf|].
  intros a ->.
  destruct (post_query_returned _ s a s' Hp)
    as (req & pre & d & text & inputs & out & t & rest & Hv' & Ht & Ha).
  assert (req = mkQueryRequest sy us 0) by congruence. subst req.
  exists pre, d, text, inputs, out, t, rest.
  repeat split; try assumption.
  - intros ->. apply strip_prompt_self.
  - intros Hvis. rewrite Ha. now apply strip_nil_iff.
Qed.

(** *** Embeddings *)

(** C7.  Let the embedding library keep its shape contract: every row that
    [encode] returns for a model has that model's dimension.  Then two
    [/embed] requests for the same text that both return, with any requests
    served in between, return vectors of one and the same length [N], the
    dimension of the model the first request left in the cache. *)
Theorem embed_fixed_dimension (dim : EmbedModel -> nat) :
  (forall m sentences w rows w',
      oracle (Encode m sentences) w = (inr rows, w') ->
      Forall (fun row => length row = dim m) rows) ->
  forall (txt : pystr) rs s v1 s1 v2 s2,
    post_embed (JObj [ (lit "text", JStr txt) ]) s = (Returned v1, s1) ->
    post_embed (JObj [ (lit "text", JStr txt) ]) (serve_all rs s1)
    = (Returned v2, s2) ->
    exists m,
      _embed_model s1 = Some m
      /\ length (embedding v1) = dim m
      /\ length (embedding v2) = dim m.
Proof.
  intros Hdim txt rs s v1 s1 v2 s2 P1 P2.
  destruct (post_embed_returned _ _ _ _ P1) as (req1 & _ & R1).
  destruct (post_embed_returned _ _ _ _ P2) as (req2 & _ & R2).
  destruct (embed_run _ _ _ _ R1) as (m & w0 & rows & w1 & Hm & _ & E1).
  destruct (embed_run _ _ _ _ R2) as (m' & w0' & rows' & w1' & Hm' & _ & E2).
  assert (m' = m) as ->.
  { pose proof (proj1 (serve_all_keeps_slots rs s1) m Hm) as K.
    pose proof (proj1 (embed_keeps_slots req2 (serve_all rs s1)) m K) as K2.
    rewrite R2 in K2. simpl in K2. congruence. }
  exists m. split; [exact Hm|].
  apply Hdim in E1. apply Hdim in E2.
  inversion E1; subst. inversion E2; subst. split; assumption.
Qed.

(** *** Sampling *)



End Facts.

(** ** The program on the small backend *)

Lemma toy_encode_dim m sentences w rows w' :
  @oracle toy_libs toy_backend (Encode m sentences) w = (inr rows, w') ->
  Forall (fun row => length row = m) rows.
Proof.
  simpl. intros H. injection H as <- _.
  apply Forall_forall. intros row Hin.
  apply in_map_iff in Hin as (x & <- & _). apply repeat_length.
Qed.




Lemma model_accessors_load_once_witness :
  @get_embed_model toy_libs toy_backend (toy_loaded 0)
  = (inr (Some 3%nat), toy_loaded 0)
  /\ @get_llm_model toy_libs toy_backend (toy_loaded 0)
     = (inr (Some (@mkLLMData toy_libs tt tt)), toy_loaded 0)
  /\ @_embed_model toy_libs
       (snd (@get_embed_model toy_libs toy_backend (toy_fresh false 0))) = None
  /\ @_llm_model toy_libs
       (snd (@get_llm_model toy_libs toy_backend (toy_fresh false 0))) = None.
Proof.
  pose proof (@model_accessors_load_once toy_libs toy_backend)
    as ((Ehit & _ & Eraise & _) & (Lhit & _ & Lraise & _)).
  split; [apply Ehit; reflexivity|].
  split; [apply Lhit; reflexivity|].
  split.
  - apply (Eraise (toy_fresh false 0) toy_OSError). vm_compute. reflexivity.
  - apply (Lraise (toy_fresh false 0) toy_OSError). vm_compute. reflexivity.
Defined.


Lemma query_answer_trimmed_witness :
  trimmed (lit "Hi!").
Proof.
  apply (proj1 (@query_answer_trimmed toy_libs toy_backend
                  say_hi_body (toy_loaded 1) (mkQueryResponse (lit "Hi!"))
                  (snd (@post_query toy_libs toy_backend say_hi_body
                                    (toy_loaded 1)))
                  ltac:(vm_compute; reflexivity))).
Defined.

(** C6, as it was stated, fails: a model that ends its turn at once leaves
    nothing to decode, and the answer to the request
    [{"system": "You are concise.", "user": "Say hi.", "max_tokens": 10}]
    is the empty string. *)
Lemma say_hi_answer_may_be_empty :
  exists a : QueryResponse,
    fst (@post_query toy_libs toy_backend say_hi_body (toy_loaded 0))
    = Returned a
    /\ length (answer a) = 0.
Proof.
  exists (mkQueryResponse []). split; vm_compute; reflexivity.
Qed.

Lemma query_zero_budget_witness :
  exists m inputs res,
    tokenize_results
      (events_since (toy_loaded 1)
         (snd (@post_query toy_libs toy_backend (JObj zero_budget_fields)
                           (toy_loaded 1))))
    = [inputs]
    /\ generate_calls
         (events_since (toy_loaded 1)
            (snd (@post_query toy_libs toy_backend (JObj zero_budget_fields)
                              (toy_loaded 1))))
       = [ (m,
            generate_kwargs inputs
              (mkQueryRequest (lit "You are concise.") (lit "Say hi.") 0),
            res) ].
Proof.
  destruct (proj2 (@query_zero_budget toy_libs toy_backend zero_budget_fields
                     (lit "You are concise.") (lit "Say hi.")
                     eq_refl eq_refl eq_refl)
                  (toy_loaded 1) _ _ (surjective_pairing _))
    as (_ & [G|(G & _)] & _).
  - exact G.
  - vm_compute in G. discriminate.
Defined.

(** C5, as it was stated, fails: with a generation library that refuses a
    budget that is not positive, the request with ["max_tokens": 0] does
    not return an answer; it fails with the library's exception. *)
Lemma query_zero_budget_may_raise :
  fst (@post_query toy_libs toy_backend (JObj zero_budget_fields) (toy_loaded 1))
  = Failed toy_ValueError
  /\ forall a,
       fst (@post_query toy_libs toy_backend (JObj zero_budget_fields)
                        (toy_loaded 1))
       <> Returned a.
Proof.
  split; [vm_compute; reflexivity|].
  intros a H. vm_compute in H. discriminate.
Qed.

Lemma embed_fixed_dimension_witness :
  exists m : nat,
    @_embed_model toy_libs
      (snd (@post_embed toy_libs toy_backend hello_world_body (toy_fresh true 0)))
    = Some m
    /\ length [0%Z; 0%Z; 0%Z] = m.
Proof.
  destruct (@embed_fixed_dimension toy_libs toy_backend (fun m => m)
              toy_encode_dim (lit "hello world")
              [GET_health; POST_query say_hi_body]
              (toy_fresh true 0)
              (@mkEmbedResponse toy_libs [0%Z; 0%Z; 0%Z])
              (snd (@post_embed toy_libs toy_backend hello_world_body
                                (toy_fresh true 0)))
              (@mkEmbedResponse toy_libs [0%Z; 0%Z; 0%Z])
              (snd (@post_embed toy_libs toy_backend hello_world_body
                      (@serve_all toy_libs toy_backend
                         [GET_health; POST_query say_hi_body]
                         (snd (@post_embed toy_libs toy_backend hello_world_body
                                           (toy_fresh true 0)))))))
    as (m & Hm & H1 & _).
  - vm_compute. reflexivity.
  - vm_compute. reflexivity.
  - exists m. split; [exact Hm | exact H1].
Defined.

Lemma embed_missing_text_rejected_witness :
  exists f,
    @post_embed toy_libs toy_backend (JObj []) (toy_fresh true 0)
    = (Rejected 422 f, toy_fresh true 0)
    /\ client_error 422 = true
    /\ @serve toy_libs toy_backend (POST_embed (JObj [])) (toy_fresh true 0)
       = (EmbedResult (Rejected 422 f), toy_fresh true 0).
Proof.
  apply (@embed_missing_text_rejected toy_libs toy_backend (JObj [])
           (toy_fresh true 0)).
  reflexivity.
Defined.

Lemma query_default_budget_witness :
  exists m inputs res,
    tokenize_results
      (events_since (toy_loaded 1)
         (snd (@post_query toy_libs toy_backend (JObj no_budget_fields)
                           (toy_loaded 1))))
    = [inputs]
    /\ generate_calls
         (events_since (toy_loaded 1)
            (snd (@post_query toy_libs toy_backend (JObj no_budget_fields)
                              (toy_loaded 1))))
       = [ (m,
            generate_kwargs inputs
              (mkQueryRequest (lit "You are concise.") (lit "Say hi.") 256),
            res) ].
Proof.
  destruct (proj2 (@query_default_budget toy_libs toy_backend no_budget_fields
                     (lit "You are concise.") (lit "Say hi.")
                     eq_refl eq_refl eq_refl)
                  (toy_loaded 1) _ _ (surjective_pairing _))
    as (_ & _ & _ & [G|(G & _)]).
  - exact G.
  - vm_compute in G. discriminate.
Defined.

Lemma query_negative_budget_passed_on_witness :
  exists m inputs res,
    tokenize_results
      (events_since (toy_loaded 1)
         (snd (@post_query toy_libs toy_backend (JObj negative_budget_fields)
                           (toy_loaded 1))))
    = [inputs]
    /\ generate_calls
         (events_since (toy_loaded 1)
            (snd (@post_query toy_libs toy_backend (JObj negative_budget_fields)
                              (toy_loaded 1))))
       = [ (m,
            generate_kwargs inputs
              (mkQueryRequest (lit "You are concise.") (lit "Say hi.") (-5)),
            res) ].
Proof.
  destruct (proj2 (@query_negative_budget_passed_on toy_libs toy_backend
                     negative_budget_fields
                     (lit "You are concise.") (lit "Say hi.") (-5)
                     ltac:(lia) eq_refl eq_refl eq_refl)
                  (toy_loaded 1) _ _ (surjective_pairing _))
    as (_ & _ & _ & [G|(G & _)]).
  - exact G.
  - vm_compute in G. discriminate.
Defined.

(** * More of the program

    The rest of this file looks at what the same functions do besides: what
    they print, which library calls a request can cause and in what order
    they stop, how often a model is constructed over the life of the
    process, and the shape of the prompt slice and of the trimmed answer. *)

Section Coverage.

Context {L : Libs} {B : Backend}.

Implicit Types (s : Proc).

(** The calls [get_embed_model] and [embed] make. *)
Definition embed_family (c : Call) : bool :=
  match c with
  | ImportSentenceTransformers | SentenceTransformer _ | Encode _ _ => true
  | _ => false
  end.

(** The calls [get_llm_model] and [query] make. *)
Definition llm_family (c : Call) : bool :=
  match c with
  | ImportTransformers | AutoModelForCausalLM_from_pretrained _ _ _
  | AutoTokenizer_from_pretrained _ | ImportTorch
  | ApplyChatTemplate _ _ _ _ | Tokenize _ _ _ | Generate _ _
  | BatchDecode _ _ _ => true
  | _ => false
  end.

(** The library calls a request of this kind can cause. *)
Definition may_cause (r : Request) (c : Call) : bool :=
  match r with
  | POST_embed _ => embed_family c
  | POST_query _ => llm_family c
  | GET_health => false
  end.

(** Constructions of the embedding model that returned a handle. *)
Definition embed_loads (d : list Event) : nat :=
  length (filter (fun ev =>
                    match ev_call ev with
                    | SentenceTransformer _ => succeeded ev
                    | _ => false
                    end) d).

(** Tokenizer loads that returned a handle: the last step of building the
    dict [get_llm_model] caches. *)
Definition tokenizer_loads (d : list Event) : nat :=
  length (filter (fun ev =>
                    match ev_call ev with
                    | AutoTokenizer_from_pretrained _ => succeeded ev
                    | _ => false
                    end) d).

(** Constructions of the causal language model that returned a handle. *)
Definition model_loads (d : list Event) : nat :=
  length (filter (fun ev =>
                    match ev_call ev with
                    | AutoModelForCausalLM_from_pretrained _ _ _ => succeeded ev
                    | _ => false
                    end) d).

(** Tokenizer loads that raised. *)
Definition tokenizer_failures (d : list Event) : nat :=
  length (filter (fun ev =>
                    match ev_call ev with
                    | AutoTokenizer_from_pretrained _ => negb (succeeded ev)
                    | _ => false
                    end) d).

(** A call that imports the transformers package or loads from a
    checkpoint. *)
Definition is_llm_load_call (c : Call) : bool :=
  match c with
  | ImportTransformers | AutoModelForCausalLM_from_pretrained _ _ _
  | AutoTokenizer_from_pretrained _ => true
  | _ => false
  end.

(** Where a call stands in the source text of the handler that makes it. *)
Definition source_rank (c : Call) : nat :=
  match c with
  | ImportSentenceTransformers => 0
  | SentenceTransformer _ => 1
  | Encode _ _ => 2
  | ImportTorch => 0
  | ImportTransformers => 1
  | AutoModelForCausalLM_from_pretrained _ _ _ => 2
  | AutoTokenizer_from_pretrained _ => 3
  | ApplyChatTemplate _ _ _ _ => 4
  | Tokenize _ _ _ => 5
  | Generate _ _ => 6
  | BatchDecode _ _ _ => 7
  end.

Fixpoint increasing (l : list nat) : bool :=
  match l with
  | a :: t =>
      match t with
      | b :: _ => (a <? b) && increasing t
      | [] => true
      end
  | [] => true
  end.

(** 1 when the slot went from empty to loaded, 0 otherwise. *)
Definition newly_loaded {A} (before after : option A) : nat :=
  match before, after with
  | None, Some _ => 1
  | _, _ => 0
  end.

(** The [encode] calls of a history: model and sentences. *)
Definition as_encode (ev : Event) : option (EmbedModel * list pystr) :=
  match ev_call ev with
  | Encode m sentences => Some (m, sentences)
  | _ => None
  end.

Fixpoint encode_calls (d : list Event) : list (EmbedModel * list pystr) :=
  match d with
  | [] => []
  | ev :: rest =>
      match as_encode ev with
      | Some c => c :: encode_calls rest
      | None => encode_calls rest
      end
  end.

Definition is_query (r : Request) : bool :=
  match r with POST_query _ => true | _ => false end.

Definition is_embed (r : Request) : bool :=
  match r with POST_embed _ => true | _ => false end.

(** The line [get_embed_model] prints for a failed load. *)
Definition embed_error_line (e : exn) : pystr :=
  lit "Error loading embedding model: " ++ exn_str e.

(** The line [get_llm_model] prints for a failed load. *)
Definition llm_error_line (e : exn) : pystr :=
  lit "Error loading LLM model: " ++ exn_str e.

Ltac unfold_all :=
  unfold query, embed, get_embed_model, get_llm_model, with_no_grad, index0,
    try_except_Exception, bind, call, print, raise, ret,
    read_embed_model, write_embed_model, read_llm_model, write_llm_model in *;
  cbv beta iota in *.

Ltac branch :=
  match goal with
  | |- context [oracle ?c ?w] =>
      let r := fresh "r" in
      let w' := fresh "w" in
      let E := fresh "E" in
      destruct (oracle c w) as [[r|r] w'] eqn:E
  | |- context [exn_is_Exception ?e] =>
      let E := fresh "Ex" in
      destruct (exn_is_Exception e) eqn:E
  | |- context [match ?l with [] => _ | _ :: _ => _ end] =>
      is_var l; destruct l
  end.

Ltac branches :=
  repeat (cbn [fst snd _embed_model _llm_model trace world stdout]; branch).

Ltac flat :=
  cbn [trace stdout]; repeat rewrite <- app_assoc; cbn [app].

(** ** What the accessors print *)

(** X1.  [get_embed_model] prints one line, and only when a load fails with
    an exception that derives from [Exception]: the error line with the
    exception's text.  A cache hit, a successful load and an exception
    outside [Exception] print nothing. *)
Theorem get_embed_model_prints s r s' :
  get_embed_model s = (r, s') ->
  stdout s' = stdout s ++
    match r with
    | inl e => if exn_is_Exception e then [embed_error_line e] else []
    | inr _ => []
    end.
Proof.
  unfold embed_error_line. unfold_all.
  destruct (_embed_model s) as [m|] eqn:H; cbv beta iota;
    branches; intros Heq; injection Heq as <- <-;
    flat; rewrite ?Ex, ?app_nil_r; reflexivity.
Qed.

(** X2.  [get_llm_model] prints nothing on a cache hit.  A load that
    succeeds prints the progress line and then the success line.  A load
    that fails prints the progress line when the import went through (so at
    least two library calls were made), never the success line, and
    last the error line when the exception derives from [Exception]. *)
Theorem get_llm_model_prints s r s' :
  get_llm_model s = (r, s') ->
  stdout s' = stdout s ++
    match r with
    | inr _ =>
        match _llm_model s with
        | Some _ => []
        | None => [ lit "Loading Qwen model (this may take a moment)...";
                    lit "Qwen model loaded successfully" ]
        end
    | inl e =>
        match events_since s s' with
        | _ :: _ :: _ => [ lit "Loading Qwen model (this may take a moment)..." ]
        | _ => []
        end
        ++ if exn_is_Exception e then [llm_error_line e] else []
    end.
Proof.
  unfold llm_error_line, events_since. unfold_all.
  destruct (_llm_model s) as [d|] eqn:H; cbv beta iota;
    branches; intros Heq; injection Heq as <- <-;
    flat; rewrite ?Ex, ?app_nil_r;
    rewrite ?skipn_app, ?skipn_all, ?Nat.sub_diag; cbn [skipn app];
    rewrite ?app_nil_r; reflexivity.
Qed.

(** ** Every run of a handler, call by call *)

(** What the history says about a run of [embed] that ended in [r]. *)
Definition embed_outcome (d : list Event) (r : exn + EmbedResponse) : Prop :=
  match r with
  | inr _ => forallb succeeded d = true
  | inl e =>
      raised_by_last d e
      \/ (e = IndexError /\ forallb succeeded d = true /\
          exists m sentences,
            last_event d = Some (mkEvent (Encode m sentences) (inr [])))
  end.

(** What the history says about a run of [query] that ended in [r]. *)
Definition query_outcome (d : list Event) (r : exn + QueryResponse) : Prop :=
  match r with
  | inr _ => forallb succeeded d = true
  | inl e =>
      raised_by_last d e
      \/ (e = IndexError /\ forallb succeeded d = true /\
          exists t ids,
            last_event d = Some (mkEvent (BatchDecode t ids true) (inr [])))
  end.

Lemma embed_delta (req : EmbedRequest) s r s' :
  embed req s = (r, s') ->
  exists d,
    trace s' = trace s ++ d
    /\ forallb (fun ev => embed_family (ev_call ev)) d = true
    /\ _llm_model s' = _llm_model s
    /\ embed_loads d = newly_loaded (_embed_model s) (_embed_model s')
    /\ tokenizer_loads d = 0
    /\ embed_outcome d r
    /\ Forall (fun c => _embed_model s' = Some (fst c) /\ snd c = [text req])
              (encode_calls d)
    /\ length (encode_calls d) <= 1.
Proof.
  unfold embed_outcome, raised_by_last, last_event. unfold_all.
  destruct (_embed_model s) as [m|] eqn:H; cbv beta iota; rewrite ?H;
    cbv beta iota; branches; intros Heq; injection Heq as <- <-;
    eexists; (split; [flat; reflexivity|]);
    cbn; repeat split; auto;
    try (left; split; reflexivity);
    try (right; repeat split; do 2 eexists; reflexivity).
Qed.

Lemma query_delta (req : QueryRequest) s r s' :
  query req s = (r, s') ->
  exists d,
    trace s' = trace s ++ d
    /\ forallb (fun ev => llm_family (ev_call ev)) d = true
    /\ _embed_model s' = _embed_model s
    /\ tokenizer_loads d = newly_loaded (_llm_model s) (_llm_model s')
    /\ embed_loads d = 0
    /\ query_outcome d r
    /\ Forall (fun g => exists c : LLMData,
                   _llm_model s' = Some c /\ fst (fst g) = llm_model c)
              (generate_calls d).
Proof.
  unfold query_outcome, raised_by_last, last_event. unfold_all.
  destruct (oracle ImportTorch (world s)) as [[e0|[]] w0] eqn:E0;
    cbn [fst snd _embed_model _llm_model trace world stdout].
  - intros Heq; injection Heq as <- <-.
    eexists; (split; [flat; reflexivity|]).
    cbn. repeat split; auto. destruct (_llm_model s); reflexivity.
  - destruct (_llm_model s) as [c|] eqn:H; cbv beta iota;
      branches; intros Heq; injection Heq as <- <-;
      eexists; (split; [flat; reflexivity|]);
      cbn; repeat split; auto;
      try (left; split; reflexivity);
      try (right; repeat split; do 2 eexists; reflexivity);
      try (constructor; [eexists; split; reflexivity | constructor]).
Qed.

Lemma newly_loaded_same {A} (x : option A) : newly_loaded x x = 0.
Proof. now destruct x. Qed.

Lemma post_embed_run (body : json) s o s' :
  post_embed body s = (o, s') ->
  (exists f, validate_EmbedRequest body = inl f /\ o = Rejected 422 f /\ s' = s)
  \/ (exists req r,
         validate_EmbedRequest body = inr req /\ embed req s = (r, s') /\
         o = match r with inl e => Failed e | inr a => Returned a end).
Proof.
  unfold post_embed, run_handler.
  destruct (validate_EmbedRequest body) as [f|req].
  - intros H; injection H as <- <-. left. now exists f.
  - destruct (embed req s) as [[e|a] s1] eqn:Hq; intros H;
      injection H as <- <-; right;
      [exists req, (inl e) | exists req, (inr a)]; auto.
Qed.

(** ** The prompt slice *)

(** X3.  The list comprehension that cuts the prompt off pairs input rows
    with output rows and stops at the shorter batch.  Each row it yields is
    the tail of the output row: the output row is its own first
    [len(input_ids)] tokens followed by the yielded row, whose length is the
    output's length minus the prompt's, and zero, without an error, when the
    output is no longer than the prompt. *)
Theorem strip_prompt_shape (ins outs : list (list Z)) :
  length (strip_prompt ins outs) = Nat.min (length ins) (length outs)
  /\ forall i inp o,
       nth_error ins i = Some inp ->
       nth_error outs i = Some o ->
       exists row,
         nth_error (strip_prompt ins outs) i = Some row
         /\ o = firstn (length inp) o ++ row
         /\ length row = length o - length inp
         /\ (length o <= length inp -> row = []).
Proof.
  split.
  - unfold strip_prompt. now rewrite length_map, length_combine.
  - intros i inp o Hi Ho. exists (skipn (length inp) o).
    split; [now apply strip_prompt_nth|].
    split; [now rewrite firstn_skipn|].
    split; [apply length_skipn|].
    intros Hle. now apply skipn_all2.
Qed.

(** ** The answer *)

Lemma lstrip_split (t : pystr) :
  exists l, t = l ++ lstrip t /\ forallb py_isspace l = true.
Proof.
  induction t as [|c t (l & Ht & Hl)]; [now exists []|].
  simpl. destruct (py_isspace c) eqn:E.
  - exists (c :: l). simpl. rewrite E, Hl. split; [now f_equal | reflexivity].
  - now exists [].
Qed.

Lemma rstrip_split (t : pystr) :
  exists r, t = rstrip t ++ r /\ forallb py_isspace r = true.
Proof.
  induction t as [|c t (r & Ht & Hr)]; [now exists []|].
  simpl. destruct (rstrip t) as [|x u] eqn:E.
  - simpl in Ht. subst t. destruct (py_isspace c) eqn:Ec.
    + exists (c :: r). simpl. now rewrite Ec, Hr.
    + now exists r.
  - exists r. split; [|exact Hr]. simpl. now f_equal.
Qed.

Lemma strip_split (t : pystr) :
  exists l r,
    t = l ++ strip t ++ r
    /\ forallb py_isspace l = true /\ forallb py_isspace r = true.
Proof.
  destruct (lstrip_split t) as (l & Hl & Hls).
  destruct (rstrip_split (lstrip t)) as (r & Hr & Hrs).
  exists l, r. unfold strip. now rewrite <- Hr.
Qed.

(** X4.  The answer of a [/query] request that returned sits unchanged
    inside the first text of the last library call, the decoder's: that
    text is a run of whitespace, then the answer, then a run of whitespace.
    Trimming never touches the inside of the decoded text. *)
Theorem query_answer_inside_decoded (body : json) s (a : QueryResponse) s' :
  post_query body s = (Returned a, s') ->
  exists t ids decoded rest l r,
    last_event (events_since s s')
    = Some (mkEvent (BatchDecode t ids true) (inr (decoded :: rest)))
    /\ decoded = l ++ answer a ++ r
    /\ forallb py_isspace l = true
    /\ forallb py_isspace r = true.
Proof.
  intros Hp.
  destruct (post_query_returned body s a s' Hp)
    as (req & pre & c & text & inputs & out & t & rest & _ & Ht & Ha).
  destruct (strip_split t) as (l & r & Hsplit & Hl & Hr).
  exists (llm_tokenizer c), (strip_prompt (input_ids inputs) out), t, rest, l, r.
  rewrite Ha. repeat split; try assumption.
  unfold events_since, last_event, answered_by. rewrite Ht.
  rewrite skipn_app, skipn_all, Nat.sub_diag. cbn [skipn app].
  rewrite rev_app_distr. reflexivity.
Qed.

(** ** Validation of [/query] *)

(** X5.  A [POST /query] body that is not an object, or has no ["system"]
    member, or has no ["user"] member, never reaches the handler: it is
    rejected with status 422 and the process is left exactly as it was (no
    import, no model load, nothing printed). *)
Theorem query_missing_member_rejected (body : json) s :
  has_field (lit "system") body = false
  \/ has_field (lit "user") body = false ->
  exists f,
    post_query body s = (Rejected 422 f, s)
    /\ serve (POST_query body) s = (QueryResult (Rejected 422 f), s).
Proof.
  intros H.
  assert (exists f, validate_QueryRequest body = inl f) as [f Hf].
  { destruct body; try (eexists; reflexivity).
    unfold has_field in H. unfold validate_QueryRequest, required.
    destruct (obj_get (lit "system") fields) as [v1|];
      [|eexists; reflexivity].
    destruct (as_str v1); [|eexists; reflexivity].
    destruct (obj_get (lit "user") fields) as [v2|];
      [|eexists; reflexivity].
    destruct H; discriminate. }
  exists f. unfold serve, post_query. rewrite Hf. split; reflexivity.
Qed.

(** ** Requests stop at the first failure *)

(** X6.  A [/query] request makes its library calls one after the other and
    stops at the first that raises: when the request fails with [e], either
    the last call made raised [e] and every call before it returned, or
    every call returned, the last being a decode that gave no text, and [e]
    is the [IndexError] of taking its first element.  When the request
    returns, every call returned; when it is rejected, the process is
    untouched.  No exception of a library call is swallowed or replaced. *)
Theorem query_stops_at_first_failure (body : json) s o s' :
  post_query body s = (o, s') ->
  match o with
  | Rejected _ _ => s' = s
  | Failed e =>
      raised_by_last (events_since s s') e
      \/ (e = IndexError /\ forallb succeeded (events_since s s') = true /\
          exists t ids,
            last_event (events_since s s')
            = Some (mkEvent (BatchDecode t ids true) (inr [])))
  | Returned _ => forallb succeeded (events_since s s') = true
  end.
Proof.
  intros Hp.
  destruct (post_query_run body s o s' Hp)
    as [(f & _ & -> & ->)|(req & r & _ & Hq & ->)]; [reflexivity|].
  destruct (query_delta req s r s' Hq) as (d & Ht & _ & _ & _ & _ & Ho & _).
  rewrite (events_since_app _ _ _ Ht). destruct r; exact Ho.
Qed.

(** X7.  The same for [/embed]: a request that fails with [e] stopped at
    the library call that raised [e], all calls before it having returned,
    or [encode] returned no row and [e] is the [IndexError] of taking the
    first; a request that returns saw every call return. *)
Theorem embed_stops_at_first_failure (body : json) s o s' :
  post_embed body s = (o, s') ->
  match o with
  | Rejected _ _ => s' = s
  | Failed e =>
      raised_by_last (events_since s s') e
      \/ (e = IndexError /\ forallb succeeded (events_since s s') = true /\
          exists m sentences,
            last_event (events_since s s')
            = Some (mkEvent (Encode m sentences) (inr [])))
  | Returned _ => forallb succeeded (events_since s s') = true
  end.
Proof.
  intros Hp.
  destruct (post_embed_run body s o s' Hp)
    as [(f & _ & -> & ->)|(req & r & _ & Hq & ->)]; [reflexivity|].
  destruct (embed_delta req s r s' Hq) as (d & Ht & _ & _ & _ & _ & Ho & _).
  rewrite (events_since_app _ _ _ Ht). destruct r; exact Ho.
Qed.

(** ** Models in use are the cached ones *)

Lemma events_since_same s : events_since s s = [].
Proof. unfold events_since. apply skipn_all. Qed.

(** X8.  Whatever a [/query] request does, each [generate] call it makes
    runs on the model that is in the cache when the request ends, and that
    is the handle that was cached before if there was one: the handler
    never generates with a model it does not keep. *)
Theorem generate_uses_cached_model (body : json) s o s' :
  post_query body s = (o, s') ->
  Forall (fun g =>
            exists c : LLMData,
              _llm_model s' = Some c /\ fst (fst g) = llm_model c
              /\ forall c0, _llm_model s = Some c0 -> c0 = c)
         (generate_calls (events_since s s')).
Proof.
  intros Hp.
  destruct (post_query_run body s o s' Hp)
    as [(f & _ & -> & ->)|(req & r & _ & Hq & ->)].
  - rewrite events_since_same. constructor.
  - destruct (query_delta req s r s' Hq) as (d & Ht & _ & _ & _ & _ & _ & Hg).
    rewrite (events_since_app _ _ _ Ht).
    eapply Forall_impl; [|exact Hg].
    intros g (c & Hc & Hm). exists c. repeat split; try assumption.
    intros c0 H0.
    pose proof (proj2 (query_keeps_slots req s) c0 H0) as K.
    rewrite Hq in K. simpl in K. congruence.
Qed.

(** X9.  An [/embed] request calls [encode] at most once, on the model that
    is in the cache when the request ends, and with a batch of exactly one
    sentence: the request's text as it was validated. *)
Theorem encode_uses_cached_model (body : json) s o s' :
  post_embed body s = (o, s') ->
  length (encode_calls (events_since s s')) <= 1
  /\ Forall (fun c =>
               _embed_model s' = Some (fst c)
               /\ exists req,
                    validate_EmbedRequest body = inr req
                    /\ snd c = [text req])
            (encode_calls (events_since s s')).
Proof.
  intros Hp.
  destruct (post_embed_run body s o s' Hp)
    as [(f & _ & -> & ->)|(req & r & Hv & Hq & ->)].
  - rewrite events_since_same. split; [simpl; lia | constructor].
  - destruct (embed_delta req s r s' Hq)
      as (d & Ht & _ & _ & _ & _ & _ & He & Hn).
    rewrite (events_since_app _ _ _ Ht). split; [exact Hn|].
    eapply Forall_impl; [|exact He].
    intros c (Hc & Hs). split; [exact Hc|]. now exists req.
Qed.

(** ** The life of the process *)

Lemma serve_delta (r : Request) s :
  exists d,
    trace (snd (serve r s)) = trace s ++ d
    /\ forallb (fun ev => may_cause r (ev_call ev)) d = true
    /\ embed_loads d
       = newly_loaded (_embed_model s) (_embed_model (snd (serve r s)))
    /\ tokenizer_loads d
       = newly_loaded (_llm_model s) (_llm_model (snd (serve r s)))
    /\ (is_query r = false -> _llm_model (snd (serve r s)) = _llm_model s)
    /\ (is_embed r = false -> _embed_model (snd (serve r s)) = _embed_model s).
Proof.
  assert (forall s0 : Proc,
             trace s0 = trace s0 ++ []
             /\ forallb (fun ev => may_cause r (ev_call ev)) [] = true
             /\ embed_loads [] = newly_loaded (_embed_model s0) (_embed_model s0)
             /\ tokenizer_loads [] = newly_loaded (_llm_model s0) (_llm_model s0)
             /\ (is_query r = false -> _llm_model s0 = _llm_model s0)
             /\ (is_embed r = false -> _embed_model s0 = _embed_model s0))
    as Same.
  { intros s0. rewrite app_nil_r, !newly_loaded_same. repeat split. }
  destruct r as [body|body|]; unfold serve.
  - destruct (post_embed body s) as [o s'] eqn:Hp. cbn [snd].
    destruct (post_embed_run body s o s' Hp)
      as [(f & _ & _ & ->)|(req & r & _ & Hq & _)]; [exists []; apply Same|].
    destruct (embed_delta req s r s' Hq)
      as (d & Ht & Hf & Hl & He & Hk & _).
    exists d. rewrite Hl, newly_loaded_same. repeat split; try assumption.
    discriminate.
  - destruct (post_query body s) as [o s'] eqn:Hp. cbn [snd].
    destruct (post_query_run body s o s' Hp)
      as [(f & _ & _ & ->)|(req & r & _ & Hq & _)]; [exists []; apply Same|].
    destruct (query_delta req s r s' Hq)
      as (d & Ht & Hf & Hl & Hk & He & _).
    exists d. rewrite Hl, newly_loaded_same. repeat split; try assumption.
    discriminate.
  - exists []. apply Same.
Qed.

Lemma newly_loaded_trans {A} (a b c : option A) :
  (forall x, a = Some x -> b = Some x) ->
  (forall x, b = Some x -> c = Some x) ->
  newly_loaded a b + newly_loaded b c = newly_loaded a c.
Proof.
  intros K1 K2. destruct a, b, c; try reflexivity;
    first [ specialize (K1 _ eq_refl); discriminate
          | specialize (K2 _ eq_refl); discriminate ].
Qed.

Lemma embed_loads_app (a b : list Event) :
  embed_loads (a ++ b) = embed_loads a + embed_loads b.
Proof. unfold embed_loads. now rewrite filter_app, length_app. Qed.

Lemma tokenizer_loads_app (a b : list Event) :
  tokenizer_loads (a ++ b) = tokenizer_loads a + tokenizer_loads b.
Proof. unfold tokenizer_loads. now rewrite filter_app, length_app. Qed.

Lemma serve_all_delta (rs : list Request) s :
  exists d,
    trace (serve_all rs s) = trace s ++ d
    /\ forallb (fun ev => existsb (fun r => may_cause r (ev_call ev)) rs) d
       = true
    /\ embed_loads d
       = newly_loaded (_embed_model s) (_embed_model (serve_all rs s))
    /\ tokenizer_loads d
       = newly_loaded (_llm_model s) (_llm_model (serve_all rs s))
    /\ (existsb is_query rs = false -> _llm_model (serve_all rs s) = _llm_model s)
    /\ (existsb is_embed rs = false ->
        _embed_model (serve_all rs s) = _embed_model s).
Proof.
  revert s. induction rs as [|r rs IH]; intros s.
  - exists []. cbn [serve_all existsb forallb].
    rewrite app_nil_r, !newly_loaded_same. repeat split.
  - destruct (serve_delta r s) as (d1 & T1 & F1 & E1 & K1 & Q1 & M1).
    destruct (IH (snd (serve r s))) as (d2 & T2 & F2 & E2 & K2 & Q2 & M2).
    destruct (serve_all_keeps_slots rs (snd (serve r s))) as [KE KL].
    destruct (serve_keeps_slots r s) as [KE1 KL1].
    exists (d1 ++ d2). cbn [serve_all existsb].
    split; [rewrite T2, T1; now rewrite app_assoc|].
    split.
    { rewrite forallb_app. apply andb_true_iff. split.
      - eapply forallb_forall. intros ev Hin.
        rewrite (proj1 (forallb_forall _ _) F1 ev Hin). reflexivity.
      - eapply forallb_forall. intros ev Hin.
        rewrite (proj1 (forallb_forall _ _) F2 ev Hin). apply orb_true_r. }
    split; [rewrite embed_loads_app, E1, E2; now apply newly_loaded_trans|].
    split; [rewrite tokenizer_loads_app, K1, K2; now apply newly_loaded_trans|].
    split; intros H; apply orb_false_iff in H as [Hr Hrs].
    + rewrite (Q2 Hrs). now apply Q1.
    + rewrite (M2 Hrs). now apply M1.
Qed.

(** X10.  Over any sequence of requests, the embedding model is constructed
    successfully exactly once if its slot goes from empty to loaded, and
    never otherwise; likewise a tokenizer load, the step that completes the
    cached language-model dict, succeeds exactly once if that slot goes
    from empty to loaded and never otherwise.  So neither happens twice,
    and neither happens at all once the slot is loaded. *)
Theorem models_constructed_at_most_once (rs : list Request) s :
  embed_loads (events_since s (serve_all rs s))
  = newly_loaded (_embed_model s) (_embed_model (serve_all rs s))
  /\ tokenizer_loads (events_since s (serve_all rs s))
     = newly_loaded (_llm_model s) (_llm_model (serve_all rs s))
  /\ embed_loads (events_since s (serve_all rs s)) <= 1
  /\ tokenizer_loads (events_since s (serve_all rs s)) <= 1.
Proof.
  destruct (serve_all_delta rs s) as (d & T & _ & E & K & _).
  rewrite (events_since_app _ _ _ T), E, K.
  repeat split;
    [destruct (_embed_model s), (_embed_model (serve_all rs s))
    |destruct (_llm_model s), (_llm_model (serve_all rs s))];
    simpl; lia.
Qed.

(** X11.  Models are loaded lazily and each endpoint touches only its own
    libraries.  Over any sequence of requests, every library call in the
    history is one that some request of the sequence can cause: the
    sentence_transformers calls need an [/embed] request, the transformers
    and torch calls need a [/query] request, and [/health] causes none.  A
    sequence without [/query] leaves the language-model slot as it was, and
    a sequence without [/embed] leaves the embedding slot as it was. *)
Theorem calls_belong_to_requests (rs : list Request) s :
  forallb (fun ev => existsb (fun r => may_cause r (ev_call ev)) rs)
          (events_since s (serve_all rs s)) = true
  /\ (existsb is_query rs = false -> _llm_model (serve_all rs s) = _llm_model s)
  /\ (existsb is_embed rs = false ->
      _embed_model (serve_all rs s) = _embed_model s).
Proof.
  destruct (serve_all_delta rs s) as (d & T & F & _ & _ & Q & M).
  rewrite (events_since_app _ _ _ T). auto.
Qed.

Lemma events_since_trans s s1 s2 (d1 d2 : list Event) :
  trace s1 = trace s ++ d1 -> trace s2 = trace s1 ++ d2 ->
  events_since s s2 = events_since s s1 ++ events_since s1 s2.
Proof.
  intros T1 T2.
  rewrite (events_since_app s s1 d1 T1), (events_since_app s1 s2 d2 T2).
  apply events_since_app. now rewrite T2, T1, app_assoc.
Qed.

(** What holds of the events of every single request, of no events, and of
    two runs of events put together, holds of the events of any sequence of
    requests. *)
Lemma serve_all_events_ind (P : list Event -> Prop) :
  P [] ->
  (forall a b, P a -> P b -> P (a ++ b)) ->
  (forall r s, P (events_since s (snd (serve r s)))) ->
  forall rs s, P (events_since s (serve_all rs s)).
Proof.
  intros P0 Papp Pstep rs.
  induction rs as [|r rs IH]; intros s.
  - cbn [serve_all]. now rewrite events_since_same.
  - cbn [serve_all].
    destruct (serve_delta r s) as (d1 & T1 & _).
    destruct (serve_all_delta rs (snd (serve r s))) as (d2 & T2 & _).
    rewrite (events_since_trans s _ _ d1 d2 T1 T2).
    apply Papp; [apply Pstep | apply IH].
Qed.

Lemma query_model_loads (req : QueryRequest) s r s' :
  query req s = (r, s') ->
  exists d,
    trace s' = trace s ++ d
    /\ model_loads d = tokenizer_loads d + tokenizer_failures d.
Proof.
  unfold_all.
  destruct (oracle ImportTorch (world s)) as [[e0|[]] w0] eqn:E0;
    cbn [fst snd _embed_model _llm_model trace world stdout].
  - intros Heq; injection Heq as <- <-.
    eexists; (split; [flat; reflexivity|]). reflexivity.
  - destruct (_llm_model s) as [c|] eqn:H; cbv beta iota;
      branches; intros Heq; injection Heq as <- <-;
      eexists; (split; [flat; reflexivity|]); reflexivity.
Qed.

(** X12.  The two halves of the language-model load are not on a par.
    Over any sequence of requests, the causal model is constructed
    successfully once for every tokenizer load that is attempted, whether
    that load returns or raises: a tokenizer load that raises throws the
    model just constructed away, and a later request constructs it again. *)
Theorem model_constructed_per_tokenizer_attempt (rs : list Request) s :
  model_loads (events_since s (serve_all rs s))
  = tokenizer_loads (events_since s (serve_all rs s))
    + tokenizer_failures (events_since s (serve_all rs s)).
Proof.
  revert rs s.
  apply (serve_all_events_ind
           (fun d => model_loads d = tokenizer_loads d + tokenizer_failures d)).
  - reflexivity.
  - intros a b Ha Hb. unfold model_loads, tokenizer_loads, tokenizer_failures in *.
    rewrite !filter_app, !length_app. lia.
  - intros r s. destruct r as [body|body|]; unfold serve.
    + destruct (post_embed body s) as [o s'] eqn:Hp. cbn [snd].
      destruct (post_embed_run body s o s' Hp)
        as [(f & _ & _ & ->)|(req & r & _ & Hq & _)];
        [now rewrite events_since_same|].
      destruct (embed_delta req s r s' Hq) as (d & Ht & Hf & _).
      rewrite (events_since_app _ _ _ Ht).
      unfold model_loads, tokenizer_loads, tokenizer_failures.
      clear Ht. induction d as [|ev d IH]; [reflexivity|].
      cbn [forallb] in Hf. apply andb_true_iff in Hf as [Hev Hd].
      cbn [filter]. destruct (ev_call ev); try discriminate; now apply IH.
    + destruct (post_query body s) as [o s'] eqn:Hp. cbn [snd].
      destruct (post_query_run body s o s' Hp)
        as [(f & _ & _ & ->)|(req & r & _ & Hq & _)];
        [now rewrite events_since_same|].
      destruct (query_model_loads req s r s' Hq) as (d & Ht & Hd).
      now rewrite (events_since_app _ _ _ Ht).
    + cbn. now rewrite events_since_same.
Qed.

(** ** Requests on a warm cache *)

(** X13.  With the embedding model in the cache, an [/embed] request for a
    text makes exactly one library call, [encode] on the cached model with
    the one-element batch of that text: nothing is imported, constructed or
    printed, and both slots stay as they were.  The request returns the
    first row of what [encode] gives, fails with the exception [encode]
    raises, and fails with [IndexError] when [encode] gives no row. *)
Theorem embed_on_warm_cache (m : EmbedModel) (txt : pystr) s o s' :
  _embed_model s = Some m ->
  post_embed (JObj [ (lit "text", JStr txt) ]) s = (o, s') ->
  exists r : exn + list (list float),
    events_since s s' = [ mkEvent (Encode m [txt]) r ]
    /\ o = match r with
           | inl e => Failed e
           | inr [] => Failed IndexError
           | inr (v :: _) => Returned (mkEmbedResponse v)
           end
    /\ stdout s' = stdout s
    /\ _embed_model s' = Some m
    /\ _llm_model s' = _llm_model s.
Proof.
  intros H. unfold post_embed, run_handler.
  change (validate_EmbedRequest (JObj [ (lit "text", JStr txt) ]))
    with (@inr pystr _ (mkEmbedRequest txt)).
  cbv beta iota. unfold_all. rewrite H. cbv beta iota. rewrite ?H.
  cbv beta iota. cbn [text].
  destruct (oracle (Encode m [txt]) (world s)) as [[e|[|v rows]] w] eqn:E;
    cbn [fst snd _embed_model _llm_model trace world stdout];
    intros Heq; injection Heq as <- <-;
    eexists; (split; [apply events_since_app; cbn [trace]; reflexivity|]);
    cbn; auto.
Qed.

(** X14.  With the language model in the cache, a [/query] request never
    imports transformers or loads from a checkpoint again: it makes at most
    five library calls (the torch import, the chat template, the
    tokenizer, [generate], the decoder), prints nothing and leaves both
    slots as they were. *)
Theorem query_on_warm_cache (c : LLMData) (body : json) s o s' :
  _llm_model s = Some c ->
  post_query body s = (o, s') ->
  forallb (fun ev => negb (is_llm_load_call (ev_call ev))) (events_since s s')
  = true
  /\ length (events_since s s') <= 5
  /\ stdout s' = stdout s
  /\ _llm_model s' = Some c
  /\ _embed_model s' = _embed_model s.
Proof.
  intros H Hp.
  destruct (post_query_run body s o s' Hp)
    as [(f & _ & _ & ->)|(req & r & _ & Hq & _)].
  - rewrite events_since_same. cbn. repeat split; auto with arith.
  - clear Hp. revert Hq. unfold_all.
    destruct (oracle ImportTorch (world s)) as [[e0|[]] w0] eqn:E0;
      cbn [fst snd _embed_model _llm_model trace world stdout].
    + intros Heq; injection Heq as <- <-.
      (erewrite events_since_app; [|flat; reflexivity]).
      cbn. repeat split; auto with arith.
    + rewrite H. cbv beta iota.
      branches; intros Heq; injection Heq as <- <-;
        (erewrite events_since_app; [|flat; reflexivity]);
        cbn; repeat split; auto with arith.
Qed.

(** ** The order of the calls *)

Lemma embed_in_order (req : EmbedRequest) s r s' :
  embed req s = (r, s') ->
  exists d,
    trace s' = trace s ++ d
    /\ increasing (map (fun ev => source_rank (ev_call ev)) d) = true.
Proof.
  unfold_all.
  destruct (_embed_model s) as [m|] eqn:H; cbv beta iota; rewrite ?H;
    cbv beta iota; branches; intros Heq; injection Heq as <- <-;
    eexists; (split; [flat; reflexivity|]); reflexivity.
Qed.

Lemma query_in_order (req : QueryRequest) s r s' :
  query req s = (r, s') ->
  exists d,
    trace s' = trace s ++ d
    /\ increasing (map (fun ev => source_rank (ev_call ev)) d) = true.
Proof.
  unfold_all.
  destruct (oracle ImportTorch (world s)) as [[e0|[]] w0] eqn:E0;
    cbn [fst snd _embed_model _llm_model trace world stdout].
  - intros Heq; injection Heq as <- <-.
    eexists; (split; [flat; reflexivity|]). reflexivity.
  - destruct (_llm_model s) as [c|] eqn:H; cbv beta iota;
      branches; intros Heq; injection Heq as <- <-;
      eexists; (split; [flat; reflexivity|]); reflexivity.
Qed.

(** X15.  Within one request the library calls follow the order of the
    source and none is made twice: for [/embed], the import, the
    constructor, [encode]; for [/query], the torch import, the transformers
    import, the model load, the tokenizer load, the chat template, the
    tokenizer, [generate], the decoder.  In particular [/query] imports
    torch before it looks at the cache, and loads the model before the
    tokenizer. *)
Theorem calls_in_source_order (r : Request) s :
  increasing (map (fun ev => source_rank (ev_call ev))
                  (events_since s (snd (serve r s)))) = true.
Proof.
  destruct r as [body|body|]; unfold serve.
  - destruct (post_embed body s) as [o s'] eqn:Hp. cbn [snd].
    destruct (post_embed_run body s o s' Hp)
      as [(f & _ & _ & ->)|(req & r & _ & Hq & _)];
      [now rewrite events_since_same|].
    destruct (embed_in_order req s r s' Hq) as (d & Ht & Hd).
    now rewrite (events_since_app _ _ _ Ht).
  - destruct (post_query body s) as [o s'] eqn:Hp. cbn [snd].
    destruct (post_query_run body s o s' Hp)
      as [(f & _ & _ & ->)|(req & r & _ & Hq & _)];
      [now rewrite events_since_same|].
    destruct (query_in_order req s r s' Hq) as (d & Ht & Hd).
    now rewrite (events_since_app _ _ _ Ht).
  - cbn. now rewrite events_since_same.
Qed.

End Coverage.

(** ** The added theorems on the small backend *)

Lemma get_embed_model_prints_witness :
  @stdout toy_libs
    (snd (@get_embed_model toy_libs toy_backend (toy_fresh false 0)))
  = [ embed_error_line toy_OSError ].
Proof.
  exact (@get_embed_model_prints toy_libs toy_backend (toy_fresh false 0)
           (inl toy_OSError)
           (snd (@get_embed_model toy_libs toy_backend (toy_fresh false 0)))
           ltac:(vm_compute; reflexivity)).
Defined.

Lemma get_llm_model_prints_witness :
  @stdout toy_libs
    (snd (@get_llm_model toy_libs toy_backend (toy_fresh false 0)))
  = [ lit "Loading Qwen model (this may take a moment)...";
      llm_error_line toy_OSError ].
Proof.
  exact (@get_llm_model_prints toy_libs toy_backend (toy_fresh false 0)
           (inl toy_OSError)
           (snd (@get_llm_model toy_libs toy_backend (toy_fresh false 0)))
           ltac:(vm_compute; reflexivity)).
Defined.

Lemma strip_prompt_shape_witness :
  exists row,
    nth_error (strip_prompt [[1; 2]; [3]] [[1; 2; 7; 8]; []; [9]])%Z 1
    = Some row
    /\ row = [].
Proof.
  destruct (proj2 (strip_prompt_shape [[1; 2]; [3]] [[1; 2; 7; 8]; []; [9]])%Z
                  1 [3]%Z [] eq_refl eq_refl)
    as (row & Hrow & _ & _ & Hempty).
  exists row. split; [exact Hrow|]. apply Hempty. simpl. lia.
Defined.

Lemma query_answer_inside_decoded_witness :
  exists decoded l r : pystr,
    decoded = l ++ lit "Hi!" ++ r
    /\ forallb py_isspace l = true /\ forallb py_isspace r = true.
Proof.
  destruct (@query_answer_inside_decoded toy_libs toy_backend
              say_hi_body (toy_loaded 1) (mkQueryResponse (lit "Hi!"))
              (snd (@post_query toy_libs toy_backend say_hi_body (toy_loaded 1)))
              ltac:(vm_compute; reflexivity))
    as (t & ids & decoded & rest & l & r & _ & Hd & Hl & Hr).
  exists decoded, l, r. auto.
Defined.

Lemma query_missing_member_rejected_witness :
  exists f,
    @post_query toy_libs toy_backend hello_world_body (toy_fresh true 0)
    = (Rejected 422 f, toy_fresh true 0)
    /\ @serve toy_libs toy_backend (POST_query hello_world_body)
              (toy_fresh true 0)
       = (QueryResult (Rejected 422 f), toy_fresh true 0).
Proof.
  apply (@query_missing_member_rejected toy_libs toy_backend hello_world_body
           (toy_fresh true 0)).
  left. reflexivity.
Defined.

Lemma query_stops_at_first_failure_witness :
  raised_by_last
    (events_since (toy_loaded 1)
       (snd (@post_query toy_libs toy_backend (JObj zero_budget_fields)
                         (toy_loaded 1))))
    toy_ValueError
  \/ (toy_ValueError = IndexError /\
      forallb succeeded
        (events_since (toy_loaded 1)
           (snd (@post_query toy_libs toy_backend (JObj zero_budget_fields)
                             (toy_loaded 1)))) = true /\
      exists t ids,
        last_event
          (events_since (toy_loaded 1)
             (snd (@post_query toy_libs toy_backend (JObj zero_budget_fields)
                               (toy_loaded 1))))
        = Some (mkEvent (BatchDecode t ids true) (inr []))).
Proof.
  exact (@query_stops_at_first_failure toy_libs toy_backend
           (JObj zero_budget_fields) (toy_loaded 1) (Failed toy_ValueError)
           (snd (@post_query toy_libs toy_backend (JObj zero_budget_fields)
                             (toy_loaded 1)))
           ltac:(vm_compute; reflexivity)).
Defined.

Lemma embed_stops_at_first_failure_witness :
  forallb succeeded
    (events_since (toy_fresh true 0)
       (snd (@post_embed toy_libs toy_backend hello_world_body
                         (toy_fresh true 0)))) = true.
Proof.
  exact (@embed_stops_at_first_failure toy_libs toy_backend
           hello_world_body (toy_fresh true 0)
           (Returned (@mkEmbedResponse toy_libs [0; 0; 0]%Z))
           (snd (@post_embed toy_libs toy_backend hello_world_body
                             (toy_fresh true 0)))
           ltac:(vm_compute; reflexivity)).
Defined.

Lemma generate_uses_cached_model_witness :
  Forall (fun g =>
            exists c : @LLMData toy_libs,
              _llm_model
                (snd (@post_query toy_libs toy_backend say_hi_body
                                  (toy_fresh true 1))) = Some c
              /\ fst (fst g) = llm_model c
              /\ forall c0, _llm_model (toy_fresh true 1) = Some c0 -> c0 = c)
         (generate_calls
            (events_since (toy_fresh true 1)
               (snd (@post_query toy_libs toy_backend say_hi_body
                                 (toy_fresh true 1))))).
Proof.
  exact (@generate_uses_cached_model toy_libs toy_backend say_hi_body
           (toy_fresh true 1) _ _ (surjective_pairing _)).
Defined.

Lemma encode_uses_cached_model_witness :
  length (encode_calls
            (events_since (toy_fresh true 0)
               (snd (@post_embed toy_libs toy_backend hello_world_body
                                 (toy_fresh true 0))))) <= 1.
Proof.
  exact (proj1 (@encode_uses_cached_model toy_libs toy_backend hello_world_body
                  (toy_fresh true 0) _ _ (surjective_pairing _))).
Defined.

Lemma calls_belong_to_requests_witness :
  @_llm_model toy_libs
    (@serve_all toy_libs toy_backend
       [POST_embed hello_world_body; GET_health] (toy_fresh true 0))
  = None.
Proof.
  exact (proj1 (proj2 (@calls_belong_to_requests toy_libs toy_backend
                         [POST_embed hello_world_body; GET_health]
                         (toy_fresh true 0)))
               eq_refl).
Defined.

Lemma embed_on_warm_cache_witness :
  exists r,
    events_since (toy_loaded 0)
      (snd (@post_embed toy_libs toy_backend hello_world_body (toy_loaded 0)))
    = [ @mkEvent toy_libs (@Encode toy_libs 3%nat [lit "hello world"]) r ].
Proof.
  destruct (@embed_on_warm_cache toy_libs toy_backend 3%nat (lit "hello world")
              (toy_loaded 0) _ _ eq_refl (surjective_pairing _))
    as (r & Hr & _).
  exists r. exact Hr.
Defined.

Lemma query_on_warm_cache_witness :
  length (events_since (toy_loaded 1)
            (snd (@post_query toy_libs toy_backend say_hi_body (toy_loaded 1))))
  <= 5.
Proof.
  exact (proj1 (proj2 (@query_on_warm_cache toy_libs toy_backend
                         (@mkLLMData toy_libs tt tt) say_hi_body
                         (toy_loaded 1) _ _ eq_refl (surjective_pairing _)))).
Defined.
